(** * The safe expression evaluator of Oscar's Pro Calculator

    A shallow embedding of [SafeEvaluator] (OscarProcalculatorapp.py):
    the class attribute [ALLOWED_OPERATORS], [evaluate] and [_eval_node],
    together with the part of the Python runtime they run on:

    - the numbers of Python (unbounded [int], [bool], IEEE-754 binary64
      [float], [complex]) and the functions of the [operator] module the
      allow-list maps to;
    - the expression nodes of the [ast] module;
    - [ast.parse(expression, mode="eval")] on a fragment of Python's
      expression grammar.

    The Python is CPython 3.8 to 3.13, where literals parse to [Constant]
    nodes and [ast.Num] is a deprecated alias; the nodes of Python < 3.8
    are part of the node type, so that [_eval_node] is modelled on both.

    Floats are [spec_float] values of the Standard Library at precision 53:
    literals, conversions from [int], [+], [-], [*] and [/] are correctly
    rounded there exactly as in CPython. What CPython delegates to the C
    library or to its complex type is taken as a parameter ([runtime]). *)

From Stdlib Require Import ZArith List String Ascii Bool Lia SpecFloat.
Import ListNotations.

Set Warnings "-register-all".

Local Open Scope string_scope.
Local Open Scope Z_scope.

(** ** Outcomes of a Python call *)

(** Exceptions the functions of the [operator] module raise on numbers. *)
Inductive operator_error : Type :=
| ZeroDivisionError
| OverflowError
| TypeError.

(** Exceptions of the model. [SyntaxError] stands for the class and its
    subclass [IndentationError]; [KeyError] is what subscripting a dict with
    a missing key raises. Exhaustion of resources ([RecursionError],
    [MemoryError]) is not modelled. *)
Inductive exn : Type :=
| SyntaxError
| ValueError (msg : string)
| KeyError
| OperatorError (e : operator_error).

(** [Unmodelled]: the input lies outside the fragment of Python's grammar
    that [ast_parse] below covers; the model then says nothing about the
    call. *)
Inductive outcome (A : Type) : Type :=
| Return (a : A)
| Raise (e : exn)
| Unmodelled.

Arguments Return {A} a.
Arguments Raise {A} e.
Arguments Unmodelled {A}.

(** ** Numbers *)

Inductive pynum : Type :=
| PyInt (z : Z)
| PyBool (b : bool)
| PyFloat (f : spec_float)
| PyComplex (re im : spec_float).

Definition arith : Type := (pynum + operator_error)%type.

Module Float.

Definition prec : Z := 53.
Definition emax : Z := 1024.

Definition add : spec_float -> spec_float -> spec_float := SFadd prec emax.
Definition sub : spec_float -> spec_float -> spec_float := SFsub prec emax.
Definition mul : spec_float -> spec_float -> spec_float := SFmul prec emax.
Definition div : spec_float -> spec_float -> spec_float := SFdiv prec emax.
Definition neg : spec_float -> spec_float := SFopp.

Definition is_zero (x : spec_float) : bool :=
  match x with S754_zero _ => true | _ => false end.

Definition is_infinite (x : spec_float) : bool :=
  match x with S754_infinity _ => true | _ => false end.

(** The float nearest to the integer [m], ties to even. *)
Definition of_Z (m : Z) : spec_float := binary_normalize prec emax m 0 false.

(** The float nearest to [a / b] for integers [a] and [b <> 0], ties to
    even: the quotient of the two integers taken as (unnormalised)
    mantissas with exponent 0. A zero numerator keeps the sign of the
    quotient. *)
Definition of_quotient (a b : Z) : spec_float :=
  let s := xorb (a <? 0) (b <? 0) in
  match a, b with
  | 0, _ => S754_zero s
  | _, 0 => S754_nan
  | _, _ =>
      div (S754_finite (a <? 0) (Z.to_pos (Z.abs a)) 0)
          (S754_finite (b <? 0) (Z.to_pos (Z.abs b)) 0)
  end.

(** The float nearest to [m * 10^e], the value of a decimal literal with
    digits [m] and decimal exponent [e]. *)
Definition of_decimal (m e : Z) : spec_float :=
  if 0 <=? e then of_Z (m * 10 ^ e) else of_quotient m (10 ^ (- e)).

End Float.

(** [float(n)] for an [int]: [OverflowError] when the rounded value does not
    fit. *)
Definition float_of_int (z : Z) : spec_float + operator_error :=
  let f := Float.of_Z z in
  if Float.is_infinite f then inr OverflowError else inl f.

Definition Z_of_bool (b : bool) : Z := if b then 1 else 0.

(** The value of an [int] or [bool] as an integer. *)
Definition as_int (x : pynum) : option Z :=
  match x with
  | PyInt z => Some z
  | PyBool b => Some (Z_of_bool b)
  | _ => None
  end.

Definition is_complex (x : pynum) : bool :=
  match x with PyComplex _ _ => true | _ => false end.

(** The value of an [int], [bool] or [float] operand in float arithmetic. *)
Definition as_float (x : pynum) : spec_float + operator_error :=
  match x with
  | PyInt z => float_of_int z
  | PyBool b => float_of_int (Z_of_bool b)
  | PyFloat f => inl f
  | PyComplex _ _ => inr TypeError
  end.

(** ** The functions of the [operator] module in the allow-list *)

Inductive opfunc : Type :=
| operator_add
| operator_sub
| operator_mul
| operator_truediv
| operator_pow
| operator_mod
| operator_neg
| operator_pos.

(** What CPython computes through the platform's C library or through its
    complex type:
    - [float_pow x y] is [float.__pow__] ([x ** y] on floats), which may
      return a float or a complex number, or raise [ZeroDivisionError] or
      [OverflowError];
    - [float_rem x y] is [x % y] on floats for [y <> 0];
    - [complex_arith f x y] is [f(x, y)] when [x] or [y] is complex. *)
Record runtime : Type := {
  float_pow : spec_float -> spec_float -> arith;
  float_rem : spec_float -> spec_float -> spec_float;
  complex_arith : opfunc -> pynum -> pynum -> arith
}.

(** ** The [ast] module: expression nodes *)

Module ast.

(** Operator classes ([type(node.op)]). *)
Inductive operator : Type :=
| Add | Sub | Mult | MatMult | Div | Mod | Pow
| LShift | RShift | BitOr | BitXor | BitAnd | FloorDiv.

Inductive unaryop : Type := Invert | Not | UAdd | USub.

Inductive boolop : Type := And | Or.

Inductive cmpop : Type :=
| Eq | NotEq | Lt | LtE | Gt | GtE | Is | IsNot | In | NotIn.

(** The value of a [Constant] node. [True] and [False] are the [bool]
    numbers. *)
Inductive constant : Type :=
| CNum (n : pynum)
| CStr (s : string)
| CBytes (s : string)
| CNone
| CEllipsis.

(** Nodes. [Num], [Str] and [NameConstant] are what the parser of
    Python < 3.8 builds for literals, [Constant] what Python 3.8+ builds.
    [Expr] is the expression-statement wrapper. [Other] stands for every
    node class not listed (Lambda, IfExp, Dict, Set, Subscript,
    Attribute, comprehensions, ...), by class name. *)
Inductive node : Type :=
| Num (n : pynum)
| Str (s : string)
| NameConstant (value : constant)
| Constant (value : constant)
| BinOp (left : node) (op : operator) (right : node)
| UnaryOp (op : unaryop) (operand : node)
| Expr (value : node)
| BoolOp (op : boolop) (values : list node)
| Compare (left : node) (ops : list cmpop) (comparators : list node)
| Call (func : node) (args : list node)
| Name (id : string)
| List (elts : list node)
| Tuple (elts : list node)
| Other (cls : string).

Definition operator_eq_dec (a b : operator) : {a = b} + {a <> b}.
Proof. decide equality. Defined.

Definition unaryop_eq_dec (a b : unaryop) : {a = b} + {a <> b}.
Proof. decide equality. Defined.

End ast.

(** The key type of [ALLOWED_OPERATORS]: the class of a binary or of a
    unary operator. *)
Definition op_class : Type := (ast.operator + ast.unaryop)%type.

Definition op_class_eqb (a b : op_class) : bool :=
  match a, b with
  | inl x, inl y => if ast.operator_eq_dec x y then true else false
  | inr x, inr y => if ast.unaryop_eq_dec x y then true else false
  | _, _ => false
  end.

(** [isinstance(node, ast.Num)], with [node.n] when it holds. Python < 3.8
    has [Num] nodes; in Python 3.8+ [ast.Num] is a deprecated alias whose
    instance check accepts a [Constant] holding an [int], [float] or
    [complex] that is not a [bool], and [n] reads [value]. *)
Definition isinstance_Num (node : ast.node) : option pynum :=
  match node with
  | ast.Num n => Some n
  | ast.Constant (ast.CNum (PyBool _)) => None
  | ast.Constant (ast.CNum n) => Some n
  | _ => None
  end.

(** [isinstance(value, (int, float))], with the value as a number when it
    holds; [bool] is a subclass of [int]. *)
Definition isinstance_int_float (value : ast.constant) : option pynum :=
  match value with
  | ast.CNum (PyComplex _ _) => None
  | ast.CNum n => Some n
  | _ => None
  end.

(** ** Arithmetic of the [operator] functions *)

Section Operators.

Variable rt : runtime.

Definition int_arith (f : opfunc) (a b : Z) : arith :=
  match f with
  | operator_add => inl (PyInt (a + b))
  | operator_sub => inl (PyInt (a - b))
  | operator_mul => inl (PyInt (a * b))
  | operator_truediv =>
      if b =? 0 then inr ZeroDivisionError
      else
        let q := Float.of_quotient a b in
        if Float.is_infinite q then inr OverflowError else inl (PyFloat q)
  | operator_mod =>
      if b =? 0 then inr ZeroDivisionError else inl (PyInt (a mod b))
  | operator_pow =>
      if 0 <=? b then inl (PyInt (a ^ b))
      else
        match float_of_int a, float_of_int b with
        | inl x, inl y => float_pow rt x y
        | inr e, _ => inr e
        | _, inr e => inr e
        end
  | operator_neg | operator_pos => inr TypeError
  end.

Definition float_arith (f : opfunc) (x y : spec_float) : arith :=
  match f with
  | operator_add => inl (PyFloat (Float.add x y))
  | operator_sub => inl (PyFloat (Float.sub x y))
  | operator_mul => inl (PyFloat (Float.mul x y))
  | operator_truediv =>
      if Float.is_zero y then inr ZeroDivisionError
      else inl (PyFloat (Float.div x y))
  | operator_mod =>
      if Float.is_zero y then inr ZeroDivisionError
      else inl (PyFloat (float_rem rt x y))
  | operator_pow => float_pow rt x y
  | operator_neg | operator_pos => inr TypeError
  end.

(** [func(left, right)]: a unary function called with two arguments is a
    [TypeError]; two [int]s ([bool]s count as [int]) stay in integer
    arithmetic, a [float] operand converts the other to [float]. *)
Definition call2 (func : opfunc) (left right : pynum) : arith :=
  match func with
  | operator_neg | operator_pos => inr TypeError
  | _ =>
      if is_complex left || is_complex right then
        complex_arith rt func left right
      else
        match as_int left, as_int right with
        | Some a, Some b => int_arith func a b
        | _, _ =>
            match as_float left, as_float right with
            | inl x, inl y => float_arith func x y
            | inr e, _ => inr e
            | _, inr e => inr e
            end
        end
  end.

(** [func(operand)]: a binary function called with one argument is a
    [TypeError]. *)
Definition call1 (func : opfunc) (operand : pynum) : arith :=
  match func with
  | operator_neg =>
      inl match operand with
          | PyInt z => PyInt (- z)
          | PyBool b => PyInt (- Z_of_bool b)
          | PyFloat x => PyFloat (Float.neg x)
          | PyComplex re im => PyComplex (Float.neg re) (Float.neg im)
          end
  | operator_pos =>
      inl match operand with
          | PyBool b => PyInt (Z_of_bool b)
          | _ => operand
          end
  | _ => inr TypeError
  end.

End Operators.

(** ** The class [SafeEvaluator] *)

(** The state a call can see: the attributes of the class object. *)
Record class_state : Type := {
  ALLOWED_OPERATORS : list (op_class * opfunc)
}.

(** The class as its body defines it. *)
Definition SafeEvaluator : class_state := {|
  ALLOWED_OPERATORS :=
    [ (inl ast.Add, operator_add);
      (inl ast.Sub, operator_sub);
      (inl ast.Mult, operator_mul);
      (inl ast.Div, operator_truediv);
      (inl ast.Pow, operator_pow);
      (inl ast.Mod, operator_mod);
      (inr ast.USub, operator_neg);
      (inr ast.UAdd, operator_pos) ]
|}.

(** Lookup in a dict: the value of the first entry under [key]. *)
Fixpoint dict_get {V : Type} (d : list (op_class * V)) (key : op_class)
  : option V :=
  match d with
  | [] => None
  | (k, v) :: d' => if op_class_eqb k key then Some v else dict_get d' key
  end.

(** [key in d] *)
Definition dict_contains {V : Type} (d : list (op_class * V)) (key : op_class)
  : bool :=
  match dict_get d key with
  | Some _ => true
  | None => false
  end.

(** Computations of a classmethod: they read the class state, and end with
    a value or an exception. *)
Definition M (A : Type) : Type := class_state -> outcome A * class_state.

Definition ret {A : Type} (a : A) : M A := fun cls => (Return a, cls).

Definition raise {A : Type} (e : exn) : M A := fun cls => (Raise e, cls).

Definition bind {A B : Type} (m : M A) (k : A -> M B) : M B :=
  fun cls =>
    match m cls with
    | (Return a, cls') => k a cls'
    | (Raise e, cls') => (Raise e, cls')
    | (Unmodelled, cls') => (Unmodelled, cls')
    end.

(** [cls.ALLOWED_OPERATORS] *)
Definition get_ALLOWED_OPERATORS : M (list (op_class * opfunc)) :=
  fun cls => (Return (ALLOWED_OPERATORS cls), cls).

(** The outcome of a call of an [operator] function. *)
Definition arith_outcome (r : arith) : outcome pynum :=
  match r with
  | inl v => Return v
  | inr e => Raise (OperatorError e)
  end.

(** The result of an [operator] function as the result of the call. *)
Definition of_arith (r : arith) : M pynum :=
  match r with
  | inl v => ret v
  | inr e => raise (OperatorError e)
  end.

(** [d[key]] *)
Definition dict_getitem {V : Type} (d : list (op_class * V)) (key : op_class)
  : M V :=
  match dict_get d key with
  | Some v => ret v
  | None => raise KeyError
  end.

Notation "x <- m ;; k" := (bind m (fun x => k))
  (at level 61, m at next level, right associativity).

Section Evaluator.

Variable rt : runtime.

(** [SafeEvaluator._eval_node] *)
Fixpoint _eval_node (node : ast.node) : M pynum :=
  match isinstance_Num node with
  | Some n => ret n
  | None =>
      match node with
      | ast.Constant value =>
          match isinstance_int_float value with
          | Some v => ret v
          | None => raise (ValueError "Invalid constant")
          end
      | ast.BinOp l op r =>
          left <- _eval_node l ;;
          right <- _eval_node r ;;
          let op_type : op_class := inl op in
          allowed <- get_ALLOWED_OPERATORS ;;
          if negb (dict_contains allowed op_type) then
            raise (ValueError "Operator not allowed")
          else
            allowed' <- get_ALLOWED_OPERATORS ;;
            func <- dict_getitem allowed' op_type ;;
            of_arith (call2 rt func left right)
      | ast.UnaryOp op o =>
          operand <- _eval_node o ;;
          let op_type : op_class := inr op in
          allowed <- get_ALLOWED_OPERATORS ;;
          if negb (dict_contains allowed op_type) then
            raise (ValueError "Unary operator not allowed")
          else
            allowed' <- get_ALLOWED_OPERATORS ;;
            func <- dict_getitem allowed' op_type ;;
            of_arith (call1 func operand)
      | ast.Expr value => _eval_node value
      | _ => raise (ValueError "Invalid expression")
      end
  end.

End Evaluator.

(** ** [ast.parse(expression, mode="eval")]: tokens

    A model of CPython's tokenizer and parser (3.8 to 3.13) on a fragment of
    the expression grammar. An input the fragment does not cover is
    [Unmodelled]; on the others the model returns the tree CPython builds,
    or raises [SyntaxError] where CPython does.

    Covered: decimal integers, floats with a fraction and/or an exponent,
    imaginary literals, identifiers, [True], [False], [None], quoted strings
    of printable characters without backslash, all unary and binary
    operators, comparisons, [and], [or], [not], parentheses, tuples, list
    displays, calls with positional arguments, blanks between tokens.

    Not covered ([Unmodelled]): every other keyword ([lambda], [if], [for],
    ...), subscripts, attributes, starred items, keyword arguments, braces,
    [:], [=], string prefixes and escapes, triple quotes, underscores and
    radix prefixes in numbers, comments, line breaks, non-ASCII characters.
    The model has no resource limits: CPython's bounds on the nesting depth
    and on the digits of an [int] literal are outside it. *)

Inductive keyword : Type :=
| kw_False | kw_None | kw_True | kw_and | kw_in | kw_is | kw_not | kw_or.

Inductive punct : Type :=
| PLUS | MINUS | STAR | DOUBLESTAR | SLASH | DOUBLESLASH | PERCENT | AT
| LEFTSHIFT | RIGHTSHIFT | AMPER | VBAR | CIRCUMFLEX | TILDE
| LESS | GREATER | LESSEQUAL | GREATEREQUAL | EQEQUAL | NOTEQUAL
| LPAR | RPAR | LSQB | RSQB | COMMA.

Inductive token : Type :=
| NUMBER (value : pynum)
| STRING (s : string)
| NAME (id : string)
| KEYWORD (k : keyword)
| OP (p : punct).

Definition punct_eq_dec (a b : punct) : {a = b} + {a <> b}.
Proof. decide equality. Defined.

Module Lexer.

Definition code (c : ascii) : Z := Z.of_N (N_of_ascii c).

Definition is_digit (c : ascii) : bool :=
  (48 <=? code c) && (code c <=? 57).

Definition is_name_start (c : ascii) : bool :=
  ((65 <=? code c) && (code c <=? 90))
  || ((97 <=? code c) && (code c <=? 122))
  || (code c =? 95).

Definition is_name_char (c : ascii) : bool := is_name_start c || is_digit c.

(** Space or tab. *)
Definition is_blank (c : ascii) : bool := (code c =? 32) || (code c =? 9).

Definition is_quote (c : ascii) : bool := (code c =? 39) || (code c =? 34).

(** A character a string literal of the fragment may hold: printable
    ASCII other than the backslash. *)
Definition is_plain (c : ascii) : bool :=
  (32 <=? code c) && (code c <=? 126) && negb (code c =? 92).

Fixpoint span (p : ascii -> bool) (s : list ascii)
  : list ascii * list ascii :=
  match s with
  | c :: s' =>
      if p c then let (a, b) := span p s' in (c :: a, b) else ([], s)
  | [] => ([], [])
  end.

Definition digits_value (ds : list ascii) : Z :=
  fold_left (fun acc c => 10 * acc + (code c - 48)) ds 0.

Definition all_zeros (ds : list ascii) : bool :=
  forallb (fun c => code c =? 48) ds.

(** Keywords of Python outside the fragment. *)
Definition other_keywords : list string :=
  [ "as"; "assert"; "async"; "await"; "break"; "class"; "continue"; "def";
    "del"; "elif"; "else"; "except"; "finally"; "for"; "from"; "global";
    "if"; "import"; "lambda"; "nonlocal"; "pass"; "raise"; "return";
    "try"; "while"; "with"; "yield" ].

Definition word (id : string) : outcome token :=
  if String.eqb id "False" then Return (KEYWORD kw_False)
  else if String.eqb id "None" then Return (KEYWORD kw_None)
  else if String.eqb id "True" then Return (KEYWORD kw_True)
  else if String.eqb id "and" then Return (KEYWORD kw_and)
  else if String.eqb id "in" then Return (KEYWORD kw_in)
  else if String.eqb id "is" then Return (KEYWORD kw_is)
  else if String.eqb id "not" then Return (KEYWORD kw_not)
  else if String.eqb id "or" then Return (KEYWORD kw_or)
  else if existsb (String.eqb id) other_keywords then Unmodelled
  else Return (NAME id).

(** The exponent part [e[+-]digits] at the head of [s], if there is one. *)
Definition exponent (s : list ascii) : option (Z * list ascii) :=
  match s with
  | e :: r =>
      if (code e =? 101) || (code e =? 69) then
        match r with
        | d :: r' =>
            if is_digit d then
              let (ds, rest) := span is_digit r in
              Some (digits_value ds, rest)
            else if (code d =? 43) || (code d =? 45) then
              match r' with
              | d' :: _ =>
                  if is_digit d' then
                    let (ds, rest) := span is_digit r' in
                    Some (if code d =? 45 then - digits_value ds
                          else digits_value ds, rest)
                  else None
              | [] => None
              end
            else None
        | [] => None
        end
      else None
  | [] => None
  end.

(** A number at the head of [s], which starts with a digit, or with a
    point and a digit. *)
Definition number (s : list ascii) : outcome (pynum * list ascii) :=
  let (ip, r1) := span is_digit s in
  let '(point, fp, r2) :=
    match r1 with
    | c :: r =>
        if code c =? 46 then let (fp, r') := span is_digit r in (true, fp, r')
        else (false, [], r1)
    | [] => (false, [], r1)
    end in
  let '(float, ex, r3) :=
    match exponent r2 with
    | Some (ex, r) => (true, ex, r)
    | None => (point, 0, r2)
    end in
  let '(imag, r4) :=
    match r3 with
    | c :: r =>
        if (code c =? 106) || (code c =? 74) then (true, r) else (false, r3)
    | [] => (false, r3)
    end in
  let glued := match r4 with c :: _ => is_name_char c | [] => false end in
  if glued then Unmodelled
  else
    let x := Float.of_decimal (digits_value (ip ++ fp))
                              (ex - Z.of_nat (List.length fp)) in
    if imag then Return (PyComplex (S754_zero false) x, r4)
    else if float then Return (PyFloat x, r4)
    else
      match ip with
      | c :: _ :: _ =>
          if (code c =? 48) && negb (all_zeros ip) then Raise SyntaxError
          else Return (PyInt (digits_value ip), r4)
      | _ => Return (PyInt (digits_value ip), r4)
      end.

(** A string literal at the head of [s], which starts with the quote [q]. *)
Definition quoted (q : ascii) (s : list ascii)
  : outcome (string * list ascii) :=
  let (body, r) := span (fun c => negb (Ascii.eqb c q)) s in
  match r with
  | _ :: rest =>
      let triple :=
        match body, rest with
        | [], c :: _ => Ascii.eqb c q
        | _, _ => false
        end in
      if triple || negb (forallb is_plain body) then Unmodelled
      else Return (string_of_list_ascii body, rest)
  | [] => Unmodelled
  end.

(** The operator or delimiter at the head of [c :: s]. *)
Definition operator (c : ascii) (s : list ascii)
  : option (punct * list ascii) :=
  let two (d : Z) (p2 p1 : option punct) :=
    match s with
    | c' :: s' =>
        if code c' =? d then option_map (fun p => (p, s')) p2
        else option_map (fun p => (p, s)) p1
    | [] => option_map (fun p => (p, s)) p1
    end in
  let one (p : punct) := Some (p, s) in
  let k := code c in
  if k =? 43 then one PLUS
  else if k =? 45 then one MINUS
  else if k =? 42 then two 42 (Some DOUBLESTAR) (Some STAR)
  else if k =? 47 then two 47 (Some DOUBLESLASH) (Some SLASH)
  else if k =? 37 then one PERCENT
  else if k =? 64 then one AT
  else if k =? 38 then one AMPER
  else if k =? 124 then one VBAR
  else if k =? 94 then one CIRCUMFLEX
  else if k =? 126 then one TILDE
  else if k =? 60 then
    match s with
    | c' :: s' =>
        if code c' =? 60 then Some (LEFTSHIFT, s')
        else if code c' =? 61 then Some (LESSEQUAL, s')
        else Some (LESS, s)
    | [] => Some (LESS, s)
    end
  else if k =? 62 then
    match s with
    | c' :: s' =>
        if code c' =? 62 then Some (RIGHTSHIFT, s')
        else if code c' =? 61 then Some (GREATEREQUAL, s')
        else Some (GREATER, s)
    | [] => Some (GREATER, s)
    end
  else if k =? 61 then two 61 (Some EQEQUAL) None
  else if k =? 33 then two 61 (Some NOTEQUAL) None
  else if k =? 40 then one LPAR
  else if k =? 41 then one RPAR
  else if k =? 91 then one LSQB
  else if k =? 93 then one RSQB
  else if k =? 44 then one COMMA
  else None.

End Lexer.

(** [mbind]: sequencing of outcomes. *)
Definition mbind {A B : Type} (m : outcome A) (k : A -> outcome B)
  : outcome B :=
  match m with
  | Return a => k a
  | Raise e => Raise e
  | Unmodelled => Unmodelled
  end.

Notation "' p <~ m ;; k" := (mbind m (fun p => k))
  (at level 61, p pattern, m at next level, right associativity).

(** The tokens of [s]; each step consumes a character, so the length of [s]
    is fuel enough. *)
Fixpoint tokens (fuel : nat) (s : list ascii) : outcome (list token) :=
  match fuel with
  | O => match s with [] => Return [] | _ => Unmodelled end
  | S fuel =>
      match s with
      | [] => Return []
      | c :: s' =>
          if Lexer.is_blank c then tokens fuel s'
          else if Lexer.is_digit c
                  || ((Lexer.code c =? 46)
                      && match s' with
                         | d :: _ => Lexer.is_digit d
                         | [] => false
                         end) then
            ' (v, rest) <~ Lexer.number s ;;
            ' ts <~ tokens fuel rest ;;
            Return (NUMBER v :: ts)
          else if Lexer.is_name_start c then
            let (id, rest) := Lexer.span Lexer.is_name_char s in
            let prefix :=
              match rest with
              | q :: _ => Lexer.is_quote q
              | [] => false
              end in
            if prefix then Unmodelled
            else
              ' t <~ Lexer.word (string_of_list_ascii id) ;;
              ' ts <~ tokens fuel rest ;;
              Return (t :: ts)
          else if Lexer.is_quote c then
            ' (str, rest) <~ Lexer.quoted c s' ;;
            ' ts <~ tokens fuel rest ;;
            Return (STRING str :: ts)
          else
            match Lexer.operator c s' with
            | Some (p, rest) =>
                ' ts <~ tokens fuel rest ;;
                Return (OP p :: ts)
            | None => Unmodelled
            end
      end
  end.

(** ** [ast.parse(expression, mode="eval")]: the grammar *)

Module Grammar.

(** The binary operator [p] stands for at precedence level [n], counted
    from the tightest: 1 is [term], 2 [sum], 3 [shift_expr],
    4 [bitwise_and], 5 [bitwise_xor], 6 [bitwise_or]. *)
Definition binary_at (n : nat) (p : punct) : option ast.operator :=
  match n, p with
  | 1%nat, STAR => Some ast.Mult
  | 1%nat, SLASH => Some ast.Div
  | 1%nat, DOUBLESLASH => Some ast.FloorDiv
  | 1%nat, PERCENT => Some ast.Mod
  | 1%nat, AT => Some ast.MatMult
  | 2%nat, PLUS => Some ast.Add
  | 2%nat, MINUS => Some ast.Sub
  | 3%nat, LEFTSHIFT => Some ast.LShift
  | 3%nat, RIGHTSHIFT => Some ast.RShift
  | 4%nat, AMPER => Some ast.BitAnd
  | 5%nat, CIRCUMFLEX => Some ast.BitXor
  | 6%nat, VBAR => Some ast.BitOr
  | _, _ => None
  end.

Definition unary (p : punct) : option ast.unaryop :=
  match p with
  | PLUS => Some ast.UAdd
  | MINUS => Some ast.USub
  | TILDE => Some ast.Invert
  | _ => None
  end.

(** The comparison operator at the head of [ts]. *)
Definition compare_op (ts : list token) : option (ast.cmpop * list token) :=
  match ts with
  | OP LESS :: r => Some (ast.Lt, r)
  | OP GREATER :: r => Some (ast.Gt, r)
  | OP EQEQUAL :: r => Some (ast.Eq, r)
  | OP GREATEREQUAL :: r => Some (ast.GtE, r)
  | OP LESSEQUAL :: r => Some (ast.LtE, r)
  | OP NOTEQUAL :: r => Some (ast.NotEq, r)
  | KEYWORD kw_in :: r => Some (ast.In, r)
  | KEYWORD kw_not :: KEYWORD kw_in :: r => Some (ast.NotIn, r)
  | KEYWORD kw_is :: KEYWORD kw_not :: r => Some (ast.IsNot, r)
  | KEYWORD kw_is :: r => Some (ast.Is, r)
  | _ => None
  end.

(** Adjacent string literals are one constant. *)
Fixpoint strings (ts : list token) : string * list token :=
  match ts with
  | STRING s :: r => let (s', r') := strings r in (s ++ s', r')
  | _ => ("", ts)
  end.

Definition closes (closer : option punct) (ts : list token)
  : option (list token) :=
  match closer, ts with
  | None, [] => Some []
  | Some p, OP q :: r => if punct_eq_dec p q then Some r else None
  | _, _ => None
  end.

Definition starred (ts : list token) : bool :=
  match ts with
  | OP STAR :: _ | OP DOUBLESTAR :: _ => true
  | _ => false
  end.

Definition parsed : Type := outcome (ast.node * list token).

(** The rules, by the names of Python's grammar. [binary n] is the rule of
    the left-associative operators of level [n] ([binary 0] is [factor]).
    [items closer] reads expressions separated by commas up to [closer]
    (the end of the input for [None]) and tells whether a comma came
    last. *)
Fixpoint disjunction (fuel : nat) (ts : list token) {struct fuel} : parsed :=
  match fuel with
  | O => Unmodelled
  | S fuel =>
      ' (x, r) <~ conjunction fuel ts ;;
      match r with
      | KEYWORD kw_or :: _ =>
          ' (xs, r') <~ disjuncts fuel r ;;
          Return (ast.BoolOp ast.Or (x :: xs), r')
      | _ => Return (x, r)
      end
  end

with disjuncts (fuel : nat) (ts : list token) {struct fuel}
  : outcome (list ast.node * list token) :=
  match fuel with
  | O => Unmodelled
  | S fuel =>
      match ts with
      | KEYWORD kw_or :: r =>
          ' (x, r') <~ conjunction fuel r ;;
          ' (xs, r'') <~ disjuncts fuel r' ;;
          Return (x :: xs, r'')
      | _ => Return ([], ts)
      end
  end

with conjunction (fuel : nat) (ts : list token) {struct fuel} : parsed :=
  match fuel with
  | O => Unmodelled
  | S fuel =>
      ' (x, r) <~ inversion fuel ts ;;
      match r with
      | KEYWORD kw_and :: _ =>
          ' (xs, r') <~ conjuncts fuel r ;;
          Return (ast.BoolOp ast.And (x :: xs), r')
      | _ => Return (x, r)
      end
  end

with conjuncts (fuel : nat) (ts : list token) {struct fuel}
  : outcome (list ast.node * list token) :=
  match fuel with
  | O => Unmodelled
  | S fuel =>
      match ts with
      | KEYWORD kw_and :: r =>
          ' (x, r') <~ inversion fuel r ;;
          ' (xs, r'') <~ conjuncts fuel r' ;;
          Return (x :: xs, r'')
      | _ => Return ([], ts)
      end
  end

with inversion (fuel : nat) (ts : list token) {struct fuel} : parsed :=
  match fuel with
  | O => Unmodelled
  | S fuel =>
      match ts with
      | KEYWORD kw_not :: r =>
          ' (x, r') <~ inversion fuel r ;;
          Return (ast.UnaryOp ast.Not x, r')
      | _ => comparison fuel ts
      end
  end

with comparison (fuel : nat) (ts : list token) {struct fuel} : parsed :=
  match fuel with
  | O => Unmodelled
  | S fuel =>
      ' (x, r) <~ binary fuel 6 ts ;;
      match compare_op r with
      | Some _ =>
          ' (ops, xs, r') <~ comparands fuel r ;;
          Return (ast.Compare x ops xs, r')
      | None => Return (x, r)
      end
  end

with comparands (fuel : nat) (ts : list token) {struct fuel}
  : outcome (list ast.cmpop * list ast.node * list token) :=
  match fuel with
  | O => Unmodelled
  | S fuel =>
      match compare_op ts with
      | Some (op, r) =>
          ' (x, r') <~ binary fuel 6 r ;;
          ' (ops, xs, r'') <~ comparands fuel r' ;;
          Return (op :: ops, x :: xs, r'')
      | None => Return ([], [], ts)
      end
  end

with binary (fuel : nat) (n : nat) (ts : list token) {struct fuel} : parsed :=
  match fuel with
  | O => Unmodelled
  | S fuel =>
      match n with
      | O => factor fuel ts
      | S m =>
          ' (x, r) <~ binary fuel m ts ;;
          operands fuel n x r
      end
  end

with operands (fuel : nat) (n : nat) (x : ast.node) (ts : list token)
  {struct fuel} : parsed :=
  match fuel with
  | O => Unmodelled
  | S fuel =>
      match ts with
      | OP p :: r =>
          match binary_at n p with
          | Some op =>
              ' (y, r') <~ binary fuel (Nat.pred n) r ;;
              operands fuel n (ast.BinOp x op y) r'
          | None => Return (x, ts)
          end
      | _ => Return (x, ts)
      end
  end

with factor (fuel : nat) (ts : list token) {struct fuel} : parsed :=
  match fuel with
  | O => Unmodelled
  | S fuel =>
      match ts with
      | OP p :: r =>
          match unary p with
          | Some op =>
              ' (x, r') <~ factor fuel r ;;
              Return (ast.UnaryOp op x, r')
          | None => power fuel ts
          end
      | _ => power fuel ts
      end
  end

with power (fuel : nat) (ts : list token) {struct fuel} : parsed :=
  match fuel with
  | O => Unmodelled
  | S fuel =>
      ' (x, r) <~ atom fuel ts ;;
      ' (x', r') <~ trailers fuel x r ;;
      match r' with
      | OP DOUBLESTAR :: r'' =>
          ' (y, r3) <~ factor fuel r'' ;;
          Return (ast.BinOp x' ast.Pow y, r3)
      | _ => Return (x', r')
      end
  end

with trailers (fuel : nat) (x : ast.node) (ts : list token) {struct fuel}
  : parsed :=
  match fuel with
  | O => Unmodelled
  | S fuel =>
      match ts with
      | OP LPAR :: r =>
          ' (args, _, r') <~ items fuel (Some RPAR) false r ;;
          trailers fuel (ast.Call x args) r'
      | OP LSQB :: _ => Unmodelled
      | _ => Return (x, ts)
      end
  end

with atom (fuel : nat) (ts : list token) {struct fuel} : parsed :=
  match fuel with
  | O => Unmodelled
  | S fuel =>
      match ts with
      | NUMBER v :: r => Return (ast.Constant (ast.CNum v), r)
      | STRING _ :: _ =>
          let (s, r) := strings ts in Return (ast.Constant (ast.CStr s), r)
      | NAME id :: r => Return (ast.Name id, r)
      | KEYWORD kw_True :: r =>
          Return (ast.Constant (ast.CNum (PyBool true)), r)
      | KEYWORD kw_False :: r =>
          Return (ast.Constant (ast.CNum (PyBool false)), r)
      | KEYWORD kw_None :: r => Return (ast.Constant ast.CNone, r)
      | OP LPAR :: r =>
          ' (xs, comma, r') <~ items fuel (Some RPAR) false r ;;
          match xs, comma with
          | [x], false => Return (x, r')
          | _, _ => Return (ast.Tuple xs, r')
          end
      | OP LSQB :: r =>
          ' (xs, _, r') <~ items fuel (Some RSQB) false r ;;
          Return (ast.List xs, r')
      | _ => Raise SyntaxError
      end
  end

with items (fuel : nat) (closer : option punct) (comma : bool)
           (ts : list token) {struct fuel}
  : outcome (list ast.node * bool * list token) :=
  match fuel with
  | O => Unmodelled
  | S fuel =>
      match closes closer ts with
      | Some r => Return ([], comma, r)
      | None =>
          if starred ts then Unmodelled
          else
            ' (x, r) <~ disjunction fuel ts ;;
            match r with
            | OP COMMA :: r' =>
                ' (xs, c, r'') <~ items fuel closer true r' ;;
                Return (x :: xs, c, r'')
            | _ =>
                match closes closer r with
                | Some r' => Return ([x], false, r')
                | None => Raise SyntaxError
                end
            end
      end
  end.

(** [eval: expressions NEWLINE* ENDMARKER] *)
Definition eval (ts : list token) : outcome ast.node :=
  ' (xs, comma, _) <~ items (20 * (List.length ts + 2)) None false ts ;;
  match xs, comma with
  | [], _ => Raise SyntaxError
  | [x], false => Return x
  | _, _ => Return (ast.Tuple xs)
  end.

End Grammar.

(** [ast.parse(expression, mode="eval").body]. An input that starts with a
    blank is an [IndentationError], or has no expression at all. *)
Definition ast_parse (expression : string) : outcome ast.node :=
  let s := list_ascii_of_string expression in
  ' ts <~ tokens (List.length s) s ;;
  match s with
  | c :: _ => if Lexer.is_blank c then Raise SyntaxError else Grammar.eval ts
  | [] => Grammar.eval ts
  end.

(** ** [SafeEvaluator.evaluate] *)

(** The result of a call that does not touch the class. *)
Definition lift {A : Type} (r : outcome A) : M A := fun cls => (r, cls).

Section Evaluate.

Variable rt : runtime.

(** [SafeEvaluator.evaluate] *)
Definition evaluate (expression : string) : M pynum :=
  node <- lift (ast_parse expression) ;;
  _eval_node rt node.

(** The outcome of [_eval_node] on a node, read off the class [cls]. *)
Definition result (cls : class_state) (node : ast.node) : outcome pynum :=
  fst (_eval_node rt node cls).

(** The outcome of [SafeEvaluator.evaluate(expression)] on the class as
    defined. *)
Definition run (expression : string) : outcome pynum :=
  fst (evaluate expression SafeEvaluator).

End Evaluate.

(** The tree of an [int] literal. *)
Definition int_literal (z : Z) : ast.node := ast.Constant (ast.CNum (PyInt z)).

(** ** What the specification calls arithmetic *)

(** The binary operators of the allow-list: [+ - * / % **]. *)
Definition arithmetic_operator (op : ast.operator) : bool :=
  match op with
  | ast.Add | ast.Sub | ast.Mult | ast.Div | ast.Mod | ast.Pow => true
  | _ => false
  end.

(** The unary operators of the allow-list: negation and identity. *)
Definition arithmetic_unaryop (op : ast.unaryop) : bool :=
  match op with
  | ast.USub | ast.UAdd => true
  | _ => false
  end.

(** A tree made of numeric constants, allow-listed binary and unary
    operations and expression wrappers only. A name, a call, a comparison,
    a boolean operation, an operator outside the allow-list, a string or a
    collection anywhere the evaluator walks makes it [false]. *)
Fixpoint arithmetic (node : ast.node) : bool :=
  match node with
  | ast.Num _ => true
  | ast.Constant (ast.CNum _) => true
  | ast.BinOp l op r => arithmetic l && arithmetic r && arithmetic_operator op
  | ast.UnaryOp op o => arithmetic o && arithmetic_unaryop op
  | ast.Expr value => arithmetic value
  | _ => false
  end.

(** The exceptions [_eval_node] raises itself, for a construct it does not
    allow. *)
Definition is_rejection (e : exn) : bool :=
  match e with
  | ValueError _ => true
  | _ => false
  end.

(** The exceptions of the arithmetic: division by zero and overflow (the
    numeric faults), and operand type errors. *)
Definition is_operator_error (e : exn) : bool :=
  match e with
  | OperatorError _ => true
  | _ => false
  end.

Definition is_numeric_fault (e : exn) : bool :=
  match e with
  | OperatorError ZeroDivisionError | OperatorError OverflowError => true
  | _ => false
  end.

(** An outcome that, when it is an exception, is [SyntaxError]. *)
Definition syntax_only {A : Type} (r : outcome A) : Prop :=
  forall e, r = Raise e -> e = SyntaxError.

(** Every rule of the grammar, run with fuel [fuel], raises nothing but
    [SyntaxError]. *)
Definition rules_syntax_only (fuel : nat) : Prop :=
  (forall ts, syntax_only (Grammar.disjunction fuel ts)) /\
  (forall ts, syntax_only (Grammar.disjuncts fuel ts)) /\
  (forall ts, syntax_only (Grammar.conjunction fuel ts)) /\
  (forall ts, syntax_only (Grammar.conjuncts fuel ts)) /\
  (forall ts, syntax_only (Grammar.inversion fuel ts)) /\
  (forall ts, syntax_only (Grammar.comparison fuel ts)) /\
  (forall ts, syntax_only (Grammar.comparands fuel ts)) /\
  (forall n ts, syntax_only (Grammar.binary fuel n ts)) /\
  (forall n x ts, syntax_only (Grammar.operands fuel n x ts)) /\
  (forall ts, syntax_only (Grammar.factor fuel ts)) /\
  (forall ts, syntax_only (Grammar.power fuel ts)) /\
  (forall x ts, syntax_only (Grammar.trailers fuel x ts)) /\
  (forall ts, syntax_only (Grammar.atom fuel ts)) /\
  (forall closer comma ts, syntax_only (Grammar.items fuel closer comma ts)).

(** A computation that leaves the class as it found it. *)
Definition preserves {A : Type} (m : M A) : Prop :=
  forall cls, snd (m cls) = cls.

(** * The calculator window: [CalculatorApp]

    The methods of [CalculatorApp] that hold the logic of the keypad: they
    read and set the two [StringVar]s of the window and call
    [SafeEvaluator.evaluate]. The widgets, styles and bindings of tkinter
    are not modelled. *)

(** ** Python strings *)

(** A [str] is a sequence of Unicode code points. *)
Definition pystr : Type := list N.

(** The [str] of an ASCII literal. *)
Definition py (s : string) : pystr := map N_of_ascii (list_ascii_of_string s).

(** The code point of an ASCII character. *)
Definition ord (c : ascii) : N := N_of_ascii c.

Arguments ord c%_char.

(** What the Unicode database says of the code points from 128 on: whether
    [str.isdigit] and [str.isspace] hold of the character, and its decimal
    digit value when it has one. *)
Record unicode : Type := {
  unicode_isdigit : N -> bool;
  unicode_isspace : N -> bool;
  unicode_decimal : N -> option N
}.

Module Str.

Local Open Scope N_scope.

Definition eqb (a b : pystr) : bool :=
  if list_eq_dec N.eq_dec a b then true else false.

Definition is_ascii_digit (c : N) : bool := (48 <=? c) && (c <=? 57).

(** [c.isdigit()] for a character [c]. *)
Definition isdigit_char (u : unicode) (c : N) : bool :=
  if c <? 128 then is_ascii_digit c else unicode_isdigit u c.

(** [s.isdigit()]: every character is a digit and there is at least one. *)
Definition isdigit (u : unicode) (s : pystr) : bool :=
  match s with
  | [] => false
  | _ => forallb (isdigit_char u) s
  end.

(** [len(s)] *)
Definition len (s : pystr) : Z := Z.of_nat (List.length s).

(** [s[i]], read only where [0 <= i < len(s)]. *)
Definition item (s : pystr) (i : Z) : N := nth (Z.to_nat i) s 0.

(** A slice bound as Python clips it. *)
Definition clip (s : pystr) (i : Z) : nat :=
  Z.to_nat (if (i <? 0)%Z then Z.max 0 (len s + i) else Z.min i (len s)).

(** [s[i:]] *)
Definition from (s : pystr) (i : Z) : pystr := skipn (clip s i) s.

(** [s[:i]] *)
Definition upto (s : pystr) (i : Z) : pystr := firstn (clip s i) s.

(** [s.startswith(prefix)] *)
Fixpoint startswith (s prefix : pystr) : bool :=
  match prefix, s with
  | [], _ => true
  | p :: prefix', c :: s' => (p =? c) && startswith s' prefix'
  | _ :: _, [] => false
  end.

(** [s.endswith(suffix)] *)
Definition endswith (s suffix : pystr) : bool :=
  startswith (rev s) (rev suffix).

(** [tuple(s)]: the characters of [s], each a string. *)
Definition tuple (s : pystr) : list pystr := map (fun c => [c]) s.

(** [needle in hay]: [needle] is a substring of [hay]. *)
Fixpoint contains (hay needle : pystr) : bool :=
  startswith hay needle
  || match hay with
     | [] => false
     | _ :: hay' => contains hay' needle
     end.

Fixpoint drop_while (p : N -> bool) (s : pystr) : pystr :=
  match s with
  | c :: s' => if p c then drop_while p s' else s
  | [] => []
  end.

(** [s.rstrip(chars)] *)
Definition rstrip (s chars : pystr) : pystr :=
  rev (drop_while (fun c => existsb (N.eqb c) chars) (rev s)).

(** The Rocq string of an ASCII [str], for [ast_parse]. *)
Fixpoint ascii_string (s : pystr) : option string :=
  match s with
  | [] => Some EmptyString
  | c :: s' =>
      if c <? 128 then
        option_map (String (ascii_of_N c)) (ascii_string s')
      else None
  end.

Fixpoint uint_digits (d : Decimal.uint) : pystr :=
  match d with
  | Decimal.Nil => []
  | Decimal.D0 d' => 48 :: uint_digits d'
  | Decimal.D1 d' => 49 :: uint_digits d'
  | Decimal.D2 d' => 50 :: uint_digits d'
  | Decimal.D3 d' => 51 :: uint_digits d'
  | Decimal.D4 d' => 52 :: uint_digits d'
  | Decimal.D5 d' => 53 :: uint_digits d'
  | Decimal.D6 d' => 54 :: uint_digits d'
  | Decimal.D7 d' => 55 :: uint_digits d'
  | Decimal.D8 d' => 56 :: uint_digits d'
  | Decimal.D9 d' => 57 :: uint_digits d'
  end.

(** The decimal digits of a natural number. *)
Definition of_N (n : N) : pystr := uint_digits (N.to_uint n).

(** [str(z)] for an [int]. *)
Definition of_Z (z : Z) : pystr :=
  if (z <? 0)%Z then ord "-" :: of_N (Z.abs_N z) else of_N (Z.to_N z).

End Str.

(** ** Builtins on numbers and strings *)

Module Builtins.

Local Open Scope list_scope.

(** [int(x)] for a float: the integer part, toward zero. *)
Definition int_of_float (x : spec_float) : outcome Z :=
  match x with
  | S754_zero _ => Return 0
  | S754_infinity _ => Raise (OperatorError OverflowError)
  | S754_nan => Raise (ValueError "cannot convert float NaN to integer")
  | S754_finite s m e =>
      let magnitude :=
        if 0 <=? e then Z.pos m * 2 ^ e else Z.pos m / 2 ^ (- e) in
      Return (if s then - magnitude else magnitude)
  end.

(** [int(result)] *)
Definition int (result : pynum) : outcome Z :=
  match result with
  | PyInt z => Return z
  | PyBool b => Return (Z_of_bool b)
  | PyFloat x => int_of_float x
  | PyComplex _ _ => Raise (OperatorError TypeError)
  end.

(** [n == x] for an [int] and a float, compared exactly. *)
Definition int_eq_float (n : Z) (x : spec_float) : bool :=
  match x with
  | S754_zero _ => n =? 0
  | S754_finite s m e =>
      let sign (k : Z) := if s then - k else k in
      if 0 <=? e then n =? sign (Z.pos m * 2 ^ e)
      else (Z.pos m mod 2 ^ (- e) =? 0) && (n =? sign (Z.pos m / 2 ^ (- e)))
  | _ => false
  end.

(** [n == result] for an [int] [n]. *)
Definition int_eq (n : Z) (result : pynum) : bool :=
  match result with
  | PyInt z => n =? z
  | PyBool b => n =? Z_of_bool b
  | PyFloat x => int_eq_float n x
  | PyComplex re im => int_eq_float n re && int_eq_float 0 im
  end.

(** [str(n)] for an [int]. CPython refuses more than 4300 digits; the
    patch releases differ on it, so the model is silent there. *)
Definition str (n : Z) : outcome pystr :=
  if Z.abs n <? 10 ^ 4300 then Return (Str.of_Z n) else Unmodelled.

(** [m * 2^e * 10^6] rounded to the nearest integer, ties to even. *)
Definition millionths (m : positive) (e : Z) : Z :=
  if 0 <=? e then Z.pos m * 2 ^ e * 10 ^ 6
  else
    let num := Z.pos m * 10 ^ 6 in
    let den := 2 ^ (- e) in
    let q := num / den in
    let r := num mod den in
    if 2 * r <? den then q
    else if den <? 2 * r then q + 1
    else if Z.even q then q else q + 1.

(** The six digits of [k < 10^6]. *)
Definition six_digits (k : Z) : pystr :=
  map (fun p => Z.to_N (48 + (k / 10 ^ p) mod 10)) [5; 4; 3; 2; 1; 0].

(** [n] millionths in fixed notation: the integer part, a point, six
    digits. *)
Definition fixed (n : Z) : pystr :=
  Str.of_Z (n / 10 ^ 6) ++ ord "." :: six_digits (n mod 10 ^ 6).

Definition sign_text (s : bool) : pystr := if s then [ord "-"] else [].

(** ["%f" % x] for a float: six digits after the point, the exact value
    rounded to the nearest, ties to even. *)
Definition format_float (x : spec_float) : pystr :=
  match x with
  | S754_nan => py "nan"
  | S754_infinity s => sign_text s ++ py "inf"
  | S754_zero s => sign_text s ++ fixed 0
  | S754_finite s m e => sign_text s ++ fixed (millionths m e)
  end.

(** ["%f" % result] *)
Definition format_f (result : pynum) : outcome pystr :=
  match result with
  | PyFloat x => Return (format_float x)
  | PyComplex _ _ => Raise (OperatorError TypeError)
  | _ =>
      match as_float result with
      | inl x => Return (format_float x)
      | inr e => Raise (OperatorError e)
      end
  end.

(** *** [float(s)] for a [str] *)

Local Open Scope N_scope.

(** The string [float] parses: ASCII kept, other spaces as a space, other
    decimal digits as ASCII digits, and the rest cut at a question mark. *)
Fixpoint transform (u : unicode) (s : pystr) : pystr :=
  match s with
  | [] => []
  | c :: s' =>
      if c <? 127 then c :: transform u s'
      else if c <? 128 then [ord "?"]
      else if unicode_isspace u c then ord " " :: transform u s'
      else
        match unicode_decimal u c with
        | Some d => (48 + d) :: transform u s'
        | None => [ord "?"]
        end
  end.

(** Underscores are dropped where they stand between two digits; [None]
    where one stands elsewhere. [prev] is the character before [s]. *)
Fixpoint without_underscores (prev : N) (s : pystr) : option pystr :=
  match s with
  | [] => if prev =? ord "_" then None else Some []
  | c :: s' =>
      if c =? ord "_" then
        if Str.is_ascii_digit prev then without_underscores c s' else None
      else if (prev =? ord "_") && negb (Str.is_ascii_digit c) then None
      else option_map (cons c) (without_underscores c s')
  end.

Definition is_space (c : N) : bool := ((9 <=? c) && (c <=? 13)) || (c =? 32).

Definition strip (s : pystr) : pystr :=
  rev (Str.drop_while is_space (rev (Str.drop_while is_space s))).

Definition lower (c : N) : N :=
  if (65 <=? c) && (c <=? 90) then c + 32 else c.

Fixpoint span_digits (s : pystr) : pystr * pystr :=
  match s with
  | c :: s' =>
      if Str.is_ascii_digit c then let (a, b) := span_digits s' in (c :: a, b)
      else ([], s)
  | [] => ([], [])
  end.

Definition digits_value (ds : pystr) : Z :=
  fold_left (fun acc c => (10 * acc + (Z.of_N c - 48))%Z) ds 0%Z.

(** The sign at the head of [s]: whether it is a minus, and the rest. *)
Definition signed (s : pystr) : bool * pystr :=
  match s with
  | c :: s' =>
      if c =? ord "-" then (true, s')
      else if c =? ord "+" then (false, s')
      else (false, s)
  | [] => (false, s)
  end.

(** The exponent part at the head of [s], when it has digits. *)
Definition exponent (s : pystr) : Z * pystr :=
  match s with
  | c :: s' =>
      if lower c =? ord "e" then
        let (neg, r) := signed s' in
        let (ds, rest) := span_digits r in
        match ds with
        | [] => (0%Z, s)
        | _ => ((if neg then - digits_value ds else digits_value ds)%Z, rest)
        end
      else (0%Z, s)
  | [] => (0%Z, s)
  end.

(** A decimal number that is the whole of [s]. *)
Definition decimal (s : pystr) : option spec_float :=
  let (neg, r) := signed s in
  let (ip, r1) := span_digits r in
  let (fp, r2) :=
    match r1 with
    | c :: r' => if c =? ord "." then span_digits r' else ([], r1)
    | [] => ([], r1)
    end in
  match ip ++ fp with
  | [] => None
  | ds =>
      let (ex, rest) := exponent r2 in
      match rest with
      | [] =>
          let x := Float.of_decimal (digits_value ds)
                     (ex - Z.of_nat (List.length fp)) in
          Some (if neg then SFopp x else x)
      | _ => None
      end
  end.

(** An infinity or a NaN that is the whole of [s]. *)
Definition inf_or_nan (s : pystr) : option spec_float :=
  let (neg, r) := signed s in
  let word := map lower r in
  if Str.eqb word (py "inf") || Str.eqb word (py "infinity") then
    Some (S754_infinity neg)
  else if Str.eqb word (py "nan") then Some S754_nan
  else None.

(** [float(s)] *)
Definition float (u : unicode) (s : pystr) : outcome spec_float :=
  let invalid := Raise (ValueError "could not convert string to float") in
  match without_underscores 0 (transform u s) with
  | None => invalid
  | Some t =>
      let t' := strip t in
      match decimal t' with
      | Some x => Return x
      | None =>
          match inf_or_nan t' with
          | Some x => Return x
          | None => invalid
          end
      end
  end.

End Builtins.

(** ** The state of the window *)

(** The two [StringVar]s. The text of [result_var] is [None] where the model
    does not determine it: after a preview of an expression outside the
    fragment [ast_parse] covers. *)
Record app : Type := {
  expression_var : pystr;
  result_var : option pystr
}.

(** [self.expression_var.set(value)] *)
Definition set_expression (self : app) (value : pystr) : app :=
  {| expression_var := value; result_var := result_var self |}.

(** [self.result_var.set(value)] *)
Definition set_result (self : app) (value : option pystr) : app :=
  {| expression_var := expression_var self; result_var := value |}.

(** The window as [__init__] leaves it. *)
Definition initial : app :=
  {| expression_var := []; result_var := Some (py "0") |}.

(** The labels of the keys that are not ASCII. *)
Definition PLUS_MINUS : pystr := [177%N].
Definition TIMES : pystr := [215%N].
Definition DIVIDE : pystr := [247%N].
Definition MINUS_SIGN : pystr := [8722%N].
Definition ERASE : pystr := [9003%N].

(** The table [buttons] of [_build_layout]: the rows of keys, each key with
    its label and the columns it spans. *)
Definition buttons : list (list (pystr * Z)) :=
  [ [(py "C", 1); (PLUS_MINUS, 1); (py "%", 1); (ERASE, 1)];
    [(py "7", 1); (py "8", 1); (py "9", 1); (DIVIDE, 1)];
    [(py "4", 1); (py "5", 1); (py "6", 1); (TIMES, 1)];
    [(py "1", 1); (py "2", 1); (py "3", 1); (MINUS_SIGN, 1)];
    [(py "0", 2); (py ".", 1); (py "+", 1)];
    [(py "=", 4)] ].

(** [label in {...}] *)
Definition member (label : pystr) (set : list pystr) : bool :=
  existsb (Str.eqb label) set.

(** [CalculatorApp._button_kind] *)
Definition _button_kind (label : pystr) : pystr :=
  if member label [py "="] then py "equals"
  else if member label [DIVIDE; TIMES; MINUS_SIGN; py "+"] then py "op"
  else if member label [py "C"; ERASE; py "%"; PLUS_MINUS] then py "action"
  else py "digit".

(** [CalculatorApp._get_button_style] *)
Definition _get_button_style (kind : pystr) : pystr :=
  if Str.eqb kind (py "op") then py "Op.TButton"
  else if member kind [py "equals"; py "action"] then py "Action.TButton"
  else py "Digit.TButton".

(** The loop [while i >= 0 and cond(i): i -= 1], which makes at most
    [i + 1] turns: the value of [i] after it. *)
Fixpoint scan_back (cond : Z -> bool) (fuel : nat) (i : Z) : Z :=
  match fuel with
  | O => i
  | S fuel' =>
      if (0 <=? i) && cond i then scan_back cond fuel' (i - 1) else i
  end.

(** The loop of [_append_char], which returns from the method when it meets
    a point: whether it does. *)
Fixpoint point_behind (u : unicode) (expr : pystr) (fuel : nat) (i : Z)
  : bool :=
  match fuel with
  | O => false
  | S fuel' =>
      if (0 <=? i)
         && (Str.isdigit_char u (Str.item expr i)
             || (Str.item expr i =? ord ".")%N) then
        if (Str.item expr i =? ord ".")%N then true
        else point_behind u expr fuel' (i - 1)
      else false
  end.

Section CalculatorApp.

Variable rt : runtime.
Variable u : unicode.

Local Open Scope list_scope.

(** [CalculatorApp._sanitize_for_eval] *)
Definition _sanitize_for_eval (expr : pystr) : pystr := expr.

(** [SafeEvaluator.evaluate(expr)] for a [str]; the parser is modelled on
    ASCII strings only. *)
Definition evaluate_str (expr : pystr) : outcome pynum :=
  match Str.ascii_string expr with
  | Some s => run rt s
  | None => Unmodelled
  end.

(** The text shown for a result: the lines of the [try] blocks of [_equals]
    and of the preview after the call of [evaluate]. *)
Definition pretty (result : pynum) : outcome pystr :=
  ' n <~ Builtins.int result ;;
  if Builtins.int_eq n result then
    ' n' <~ Builtins.int result ;;
    Builtins.str n'
  else
    ' text <~ Builtins.format_f result ;;
    Return (Str.rstrip (Str.rstrip text (py "0")) (py ".")).

(** The [try] block of [_equals] and of the preview, up to the text. *)
Definition evaluated (expr : pystr) : outcome pystr :=
  ' result <~ evaluate_str (_sanitize_for_eval expr) ;;
  pretty result.

(** [CalculatorApp._reflect_expression_to_result_preview] *)
Definition _reflect_expression_to_result_preview (self : app) : app :=
  let expr := expression_var self in
  match expr with
  | [] => set_result self (Some (py "0"))
  | _ =>
      match evaluated expr with
      | Return pretty => set_result self (Some pretty)
      | Raise _ => self
      | Unmodelled => set_result self None
      end
  end.

(** [CalculatorApp._equals] *)
Definition _equals (self : app) : app :=
  let expr := expression_var self in
  match expr with
  | [] => self
  | _ =>
      match evaluated expr with
      | Return pretty => set_result self (Some pretty)
      | Raise _ => set_result self (Some (py "Error"))
      | Unmodelled => set_result self None
      end
  end.

(** [CalculatorApp._clear] *)
Definition _clear (self : app) : app :=
  set_result (set_expression self []) (Some (py "0")).

(** [CalculatorApp._backspace] *)
Definition _backspace (self : app) : app :=
  let current := expression_var self in
  let self :=
    match current with
    | [] => self
    | _ => set_expression self (Str.upto current (-1))
    end in
  _reflect_expression_to_result_preview self.

(** The condition of the loop of [_toggle_sign] at index [i]. *)
Definition in_number (expr : pystr) (i : Z) : bool :=
  Str.isdigit_char u (Str.item expr i) || (Str.item expr i =? ord ".")%N.

(** [CalculatorApp._toggle_sign] *)
Definition _toggle_sign (self : app) : app :=
  let expr := expression_var self in
  match expr with
  | [] => self
  | _ =>
      let i :=
        scan_back (in_number expr) (List.length expr) (Str.len expr - 1) in
      let number := Str.from expr (i + 1) in
      let prefix := Str.upto expr (i + 1) in
      match number with
      | [] => self
      | _ =>
          let number :=
            if Str.startswith number (py "-") then Str.from number 1
            else py "-" ++ number in
          let new_expr := prefix ++ number in
          _reflect_expression_to_result_preview (set_expression self new_expr)
      end
  end.

(** The condition of the loop of [_percent] at index [i]. *)
Definition in_signed_number (expr : pystr) (i : Z) : bool :=
  Str.isdigit_char u (Str.item expr i)
  || (Str.item expr i =? ord ".")%N
  || ((Str.item expr i =? ord "-")%N
      && ((i =? 0) || negb (Str.isdigit_char u (Str.item expr (i - 1))))).

(** The [try] block of [_percent] up to [number_str]. *)
Definition percent_text (number : pystr) : outcome pystr :=
  ' value <~ Builtins.float u number ;;
  let value := Float.div value (Float.of_Z 100) in
  let number_str :=
    Str.rstrip (Str.rstrip (Builtins.format_float value) (py "0")) (py ".") in
  Return number_str.

(** [CalculatorApp._percent] *)
Definition _percent (self : app) : app :=
  let expr := expression_var self in
  match expr with
  | [] => self
  | _ =>
      let i :=
        scan_back (in_signed_number expr) (List.length expr)
          (Str.len expr - 1) in
      let number := Str.from expr (i + 1) in
      let prefix := Str.upto expr (i + 1) in
      match percent_text number with
      | Return number_str =>
          _reflect_expression_to_result_preview
            (set_expression self (prefix ++ number_str))
      | _ => self
      end
  end.

(** [CalculatorApp._append_char] *)
Definition _append_char (char : pystr) (self : app) : app :=
  let expr := expression_var self in
  if Str.eqb char (py ".")
     && point_behind u expr (List.length expr) (Str.len expr - 1) then self
  else
    _reflect_expression_to_result_preview (set_expression self (expr ++ char)).

(** [CalculatorApp._append_operator] *)
Definition _append_operator (op : pystr) (self : app) : app :=
  let expr := expression_var self in
  if match expr with [] => true | _ => false end
     && Str.contains (py "+-*/") op
     && Str.contains (py "+*/") op then self
  else
    let expr :=
      if existsb (Str.endswith expr) (Str.tuple (py "+-*/")) then
        Str.upto expr (-1)
      else expr in
    _reflect_expression_to_result_preview (set_expression self (expr ++ op)).

(** [CalculatorApp._on_key], on the [char] of the event. *)
Definition _on_key (char : pystr) (self : app) : app :=
  if Str.isdigit u char || Str.eqb char (py ".") then _append_char char self
  else if Str.contains (py "+-*/") char then _append_operator char self
  else self.

(** The dict of [_on_press] from the labels of the operator keys to the
    characters of Python. *)
Definition mapped (label : pystr) : pystr :=
  if Str.eqb label DIVIDE then py "/"
  else if Str.eqb label TIMES then py "*"
  else if Str.eqb label MINUS_SIGN then py "-"
  else py "+".

(** [CalculatorApp._on_press] *)
Definition _on_press (label : pystr) (self : app) : app :=
  if Str.eqb label (py "C") then _clear self
  else if Str.eqb label ERASE then _backspace self
  else if Str.eqb label PLUS_MINUS then _toggle_sign self
  else if Str.eqb label (py "%") then _percent self
  else if Str.eqb label (py "=") then _equals self
  else if member label [DIVIDE; TIMES; MINUS_SIGN; py "+"] then
    _append_operator (mapped label) self
  else _append_char label self.

End CalculatorApp.

(** ** What the properties of the window speak of *)

(** A character of a number as the loops see it: a digit or the point. *)
Definition number_char (u : unicode) (c : N) : bool :=
  Str.isdigit_char u c || (c =? ord ".")%N.

(** One of the four operator characters. *)
Definition operator_char (c : N) : bool :=
  existsb (N.eqb c) (py "+-*/").

(** Reading [s] from the left: whether the run of digits and points that
    ends it holds a point, [seen] telling it of the run that [s]
    continues. *)
Fixpoint point_state (u : unicode) (seen : bool) (s : pystr) : bool :=
  match s with
  | [] => seen
  | c :: s' =>
      if (c =? ord ".")%N then point_state u true s'
      else if Str.isdigit_char u c then point_state u seen s'
      else point_state u false s'
  end.

(** No run of digits and points in [s] holds two points, [seen] telling
    whether the run that [s] continues holds one already. *)
Fixpoint points_ok (u : unicode) (seen : bool) (s : pystr) : bool :=
  match s with
  | [] => true
  | c :: s' =>
      if (c =? ord ".")%N then negb seen && points_ok u true s'
      else if Str.isdigit_char u c then points_ok u seen s'
      else points_ok u false s'
  end.

(** A string without a point. *)
Definition pointless (s : pystr) : bool :=
  forallb (fun c => negb (c =? ord "."))%N s.

(** No number of the expression has two decimal points. *)
Definition well_pointed (u : unicode) (s : pystr) : Prop :=
  points_ok u false s = true.

(** What the user does: a key of the keypad, by its label, or a key of the
    keyboard, by the binding of [_bind_keys] that takes it; [Key] is the
    binding of [<Key>], with the character of the event. *)
Inductive event : Type :=
| Press (label : pystr)
| Key (char : pystr)
| KeyReturn
| KeyEqual
| KeyBackSpace
| KeyEscape.

(** The labels of the keypad. *)
Definition labels : list pystr := map fst (List.concat buttons).

(** The handler of an event. *)
Definition handle (rt : runtime) (u : unicode) (self : app) (e : event) : app :=
  match e with
  | Press label => _on_press rt u label self
  | Key char => _on_key rt u char self
  | KeyReturn => _equals rt self
  | KeyEqual => _equals rt self
  | KeyBackSpace => _backspace rt self
  | KeyEscape => _clear self
  end.

(** An event the window can receive: the label of a press is the label of
    a key of the keypad. *)
Definition possible (e : event) : Prop :=
  match e with
  | Press label => In label labels
  | _ => True
  end.

(** The window after a sequence of events. *)
Definition after (rt : runtime) (u : unicode) (events : list event) : app :=
  fold_left (handle rt u) events initial.

(** The value in the integers of a tree of integer arithmetic: integer
    literals under [+], [-], [*], [%] with a divisor that is not zero,
    [**] with an exponent that is not negative, and the two signs.
    [a mod b] has the sign of [b], as Python's [%]. *)
Fixpoint int_value (node : ast.node) : option Z :=
  match node with
  | ast.Num (PyInt z) => Some z
  | ast.Constant (ast.CNum (PyInt z)) => Some z
  | ast.BinOp l op r =>
      match int_value l, int_value r with
      | Some a, Some b =>
          match op with
          | ast.Add => Some (a + b)
          | ast.Sub => Some (a - b)
          | ast.Mult => Some (a * b)
          | ast.Mod => if b =? 0 then None else Some (a mod b)
          | ast.Pow => if 0 <=? b then Some (a ^ b) else None
          | _ => None
          end
      | _, _ => None
      end
  | ast.UnaryOp ast.USub o => option_map Z.opp (int_value o)
  | ast.UnaryOp ast.UAdd o => int_value o
  | ast.Expr v => int_value v
  | _ => None
  end.

(** A float that is a number with a finite value: no infinity, no NaN. *)
Definition is_finite (x : spec_float) : bool :=
  match x with
  | S754_zero _ | S754_finite _ _ _ => true
  | S754_infinity _ | S754_nan => false
  end.

(** The hundredth of [n] written in decimal, with no zero at the end of
    the fraction: what the percent key is to make of the number [n]. *)
Definition hundredth (n : N) : pystr :=
  let q := (n / 100)%N in
  let r := (n mod 100)%N in
  (Str.of_N q
   ++ (if (r =? 0)%N then []
       else if (r mod 10 =? 0)%N then [ord "."; (48 + r / 10)%N]
       else [ord "."; (48 + r / 10)%N; (48 + r mod 10)%N]))%list.

(** Whether [_percent] makes of the number [n] its hundredth. *)
Definition percent_exact (u : unicode) (n : N) : bool :=
  match percent_text u (Str.of_N n) with
  | Return text => Str.eqb text (hundredth n)
  | _ => false
  end.

(** ** [SafeEvaluator.evaluate], whatever the parser answers *)

(** [ast.parse] is a function of Python's library, and [ast_parse] covers a
    part of its grammar. Here the parser is any function: [parse] gives, for
    a string, the tree that [ast.parse(expression, mode="eval").body] is, or
    the exception raised. A node class that [ast.node] does not list (an
    attribute access, a subscript, a lambda, a conditional expression, a
    dict, a set, a comprehension, ...) is [ast.Other] with the name of the
    class. *)
Section AnyParser.

Variable rt : runtime.
Variable parse : string -> outcome ast.node.

(** [SafeEvaluator.evaluate], with [parse] for [ast.parse]. *)
Definition evaluate_with (expression : string) : M pynum :=
  node <- lift (parse expression) ;;
  _eval_node rt node.

(** The outcome of [SafeEvaluator.evaluate(expression)] on the class as
    defined, with [parse] for [ast.parse]. *)
Definition run_with (expression : string) : outcome pynum :=
  fst (evaluate_with expression SafeEvaluator).

End AnyParser.
(** * Properties *)

(** ** The class state is only read *)

Lemma preserves_ret {A : Type} (a : A) : preserves (ret a).
Proof. intro cls. reflexivity. Qed.

Lemma preserves_raise {A : Type} (e : exn) : preserves (@raise A e).
Proof. intro cls. reflexivity. Qed.

Lemma preserves_lift {A : Type} (r : outcome A) : preserves (lift r).
Proof. intro cls. reflexivity. Qed.

Lemma preserves_get : preserves get_ALLOWED_OPERATORS.
Proof. intro cls. reflexivity. Qed.

Lemma preserves_of_arith (r : arith) : preserves (of_arith r).
Proof. destruct r; intro cls; reflexivity. Qed.

Lemma preserves_getitem {V : Type} (d : list (op_class * V)) (key : op_class) :
  preserves (dict_getitem d key).
Proof.
  unfold dict_getitem. destruct (dict_get d key); intro cls; reflexivity.
Qed.

Lemma preserves_bind {A B : Type} (m : M A) (k : A -> M B) :
  preserves m -> (forall a, preserves (k a)) -> preserves (bind m k).
Proof.
  intros Hm Hk cls. unfold bind.
  specialize (Hm cls).
  destruct (m cls) as [[a | e | ] cls']; simpl in Hm; subst cls'.
  - apply Hk.
  - reflexivity.
  - reflexivity.
Qed.

Create HintDb pure.

#[local] Hint Resolve preserves_ret preserves_raise preserves_lift
  preserves_get preserves_of_arith preserves_getitem preserves_bind : pure.

Lemma preserves_eval_node (rt : runtime) (node : ast.node) :
  preserves (_eval_node rt node).
Proof.
  induction node; simpl; auto with pure.
  - destruct value as [[ | | | ] | | | | ]; simpl; auto with pure.
  - apply preserves_bind; [assumption | intro a].
    apply preserves_bind; [assumption | intro b].
    apply preserves_bind; [apply preserves_get | intro d].
    destruct (negb (dict_contains d (inl op))); auto 6 with pure.
  - apply preserves_bind; [assumption | intro a].
    apply preserves_bind; [apply preserves_get | intro d].
    destruct (negb (dict_contains d (inr op))); auto 6 with pure.
Qed.

Lemma preserves_evaluate (rt : runtime) (expression : string) :
  preserves (evaluate rt expression).
Proof.
  unfold evaluate. apply preserves_bind; [apply preserves_lift | intro node].
  apply preserves_eval_node.
Qed.

(** [bind] on a computation that preserves the class. *)
Lemma fst_bind {A B : Type} (m : M A) (k : A -> M B) (cls : class_state) :
  preserves m ->
  fst (bind m k cls) =
  match fst (m cls) with
  | Return a => fst (k a cls)
  | Raise e => Raise e
  | Unmodelled => Unmodelled
  end.
Proof.
  intro Hm. unfold bind. specialize (Hm cls).
  destruct (m cls) as [[a | e | ] cls']; simpl in *; subst; reflexivity.
Qed.

(** ** The equations of [_eval_node] *)

Lemma fst_of_arith (r : arith) (cls : class_state) :
  fst (of_arith r cls) = arith_outcome r.
Proof. destruct r; reflexivity. Qed.

Section Equations.

Variable rt : runtime.

Lemma result_BinOp cls l op r :
  result rt cls (ast.BinOp l op r) =
  match result rt cls l with
  | Return a =>
      match result rt cls r with
      | Return b =>
          match dict_get (ALLOWED_OPERATORS cls) (inl op) with
          | None => Raise (ValueError "Operator not allowed")
          | Some func => arith_outcome (call2 rt func a b)
          end
      | Raise e => Raise e
      | Unmodelled => Unmodelled
      end
  | Raise e => Raise e
  | Unmodelled => Unmodelled
  end.
Proof.
  unfold result. simpl.
  rewrite fst_bind by apply preserves_eval_node.
  destruct (fst (_eval_node rt l cls)); try reflexivity.
  rewrite fst_bind by apply preserves_eval_node.
  destruct (fst (_eval_node rt r cls)); try reflexivity.
  rewrite fst_bind by apply preserves_get. simpl.
  unfold dict_contains, dict_getitem.
  destruct (dict_get (ALLOWED_OPERATORS cls) (inl op)) eqn:E; simpl;
    try reflexivity.
  rewrite fst_bind by apply preserves_get. simpl.
  rewrite E. apply fst_of_arith.
Qed.

Lemma result_UnaryOp cls op o :
  result rt cls (ast.UnaryOp op o) =
  match result rt cls o with
  | Return a =>
      match dict_get (ALLOWED_OPERATORS cls) (inr op) with
      | None => Raise (ValueError "Unary operator not allowed")
      | Some func => arith_outcome (call1 func a)
      end
  | Raise e => Raise e
  | Unmodelled => Unmodelled
  end.
Proof.
  unfold result. simpl.
  rewrite fst_bind by apply preserves_eval_node.
  destruct (fst (_eval_node rt o cls)); try reflexivity.
  rewrite fst_bind by apply preserves_get. simpl.
  unfold dict_contains, dict_getitem.
  destruct (dict_get (ALLOWED_OPERATORS cls) (inr op)) eqn:E; simpl;
    try reflexivity.
  rewrite fst_bind by apply preserves_get. simpl.
  rewrite E. apply fst_of_arith.
Qed.

Lemma result_Expr cls value :
  result rt cls (ast.Expr value) = result rt cls value.
Proof. reflexivity. Qed.

(** The allow-list of the class is the allow-list of the specification. *)
Lemma allowed_binary (op : ast.operator) :
  arithmetic_operator op = true <->
  exists func, dict_get (ALLOWED_OPERATORS SafeEvaluator) (inl op) = Some func.
Proof.
  destruct op; simpl; split; intro H;
    try reflexivity; try discriminate; try (eexists; reflexivity);
    destruct H as [func H]; discriminate.
Qed.

Lemma allowed_unary (op : ast.unaryop) :
  arithmetic_unaryop op = true <->
  exists func, dict_get (ALLOWED_OPERATORS SafeEvaluator) (inr op) = Some func.
Proof.
  destruct op; simpl; split; intro H;
    try reflexivity; try discriminate; try (eexists; reflexivity);
    destruct H as [func H]; discriminate.
Qed.

(** [_eval_node] ends with a value, with a rejection of its own or with an
    exception of the arithmetic: never with a [SyntaxError], and the model
    covers every tree. *)
Lemma result_cases (node : ast.node) :
  (exists v, result rt SafeEvaluator node = Return v) \/
  (exists e, result rt SafeEvaluator node = Raise e /\
             (is_rejection e = true \/ is_operator_error e = true)).
Proof.
  induction node;
    try (right; eexists; split; [reflexivity | left; reflexivity]).
  - left. eexists. reflexivity.
  - destruct value as [[ | | | ] | | | | ];
      try (left; eexists; reflexivity);
      right; eexists; (split; [reflexivity | left; reflexivity]).
  - rewrite result_BinOp.
    destruct IHnode1 as [[a ->] | [e [-> He]]]; [ | right; eauto].
    destruct IHnode2 as [[b ->] | [e [-> He]]]; [ | right; eauto].
    destruct (dict_get (ALLOWED_OPERATORS SafeEvaluator) (inl op)).
    + destruct (call2 rt o a b); simpl; [left | right]; eauto.
    + right. eexists. split; [reflexivity | left; reflexivity].
  - rewrite result_UnaryOp.
    destruct IHnode as [[a ->] | [e [-> He]]]; [ | right; eauto].
    destruct (dict_get (ALLOWED_OPERATORS SafeEvaluator) (inr op)).
    + destruct (call1 o a); simpl; [left | right]; eauto.
    + right. eexists. split; [reflexivity | left; reflexivity].
  - rewrite result_Expr. assumption.
Qed.

(** A tree that is not arithmetic yields no value. *)
Lemma result_not_arithmetic (node : ast.node) :
  arithmetic node = false ->
  forall v, result rt SafeEvaluator node <> Return v.
Proof.
  induction node; simpl; intros H v; try discriminate.
  - destruct value; discriminate.
  - rewrite result_BinOp.
    destruct (result rt SafeEvaluator node1) eqn:E1; try discriminate.
    destruct (result rt SafeEvaluator node2) eqn:E2; try discriminate.
    destruct (arithmetic node1); [ | exfalso; eapply IHnode1; eauto].
    destruct (arithmetic node2); [ | exfalso; eapply IHnode2; eauto].
    simpl in H.
    destruct op; try discriminate H; discriminate.
  - rewrite result_UnaryOp.
    destruct (result rt SafeEvaluator node) eqn:E; try discriminate.
    destruct (arithmetic node); [ | exfalso; eapply IHnode; eauto].
    simpl in H.
    destruct op; try discriminate H; discriminate.
  - rewrite result_Expr. auto.
Qed.

(** On an arithmetic tree [_eval_node] rejects nothing: it returns, or the
    arithmetic raises. *)
Lemma result_arithmetic (node : ast.node) :
  arithmetic node = true ->
  (exists v, result rt SafeEvaluator node = Return v) \/
  (exists e, result rt SafeEvaluator node = Raise (OperatorError e)).
Proof.
  induction node; simpl; intro H; try discriminate.
  - left. eexists. reflexivity.
  - destruct value as [[ | | | ] | | | | ]; try discriminate;
      left; eexists; reflexivity.
  - apply andb_prop in H. destruct H as [H Hop].
    apply andb_prop in H. destruct H as [H1 H2].
    rewrite result_BinOp.
    destruct (IHnode1 H1) as [[a ->] | [e ->]]; [ | right; eauto].
    destruct (IHnode2 H2) as [[b ->] | [e ->]]; [ | right; eauto].
    apply allowed_binary in Hop. destruct Hop as [func ->].
    destruct (call2 rt func a b); simpl; eauto.
  - apply andb_prop in H. destruct H as [H1 Hop].
    rewrite result_UnaryOp.
    destruct (IHnode H1) as [[a ->] | [e ->]]; [ | right; eauto].
    apply allowed_unary in Hop. destruct Hop as [func ->].
    destruct (call1 func a); simpl; eauto.
  - rewrite result_Expr. auto.
Qed.

(** [run] is [result] after parsing. *)
Lemma run_parsed (expression : string) :
  run rt expression =
  match ast_parse expression with
  | Return node => result rt SafeEvaluator node
  | Raise e => Raise e
  | Unmodelled => Unmodelled
  end.
Proof.
  unfold run, evaluate. rewrite fst_bind by apply preserves_lift.
  unfold lift. simpl. destruct (ast_parse expression); reflexivity.
Qed.

End Equations.

(** ** Concrete calls *)

(** A concrete call is settled by running the model. *)
Ltac run_python := intros; vm_compute; reflexivity.

Ltac run_all := intros; repeat split; run_python.

(** ** The parser on examples *)

Example parse_unary_binds_tighter :
  ast_parse "-2**2" =
    Return (ast.UnaryOp ast.USub
              (ast.BinOp (int_literal 2) ast.Pow (int_literal 2))) /\
  ast_parse "2**-1" =
    Return (ast.BinOp (int_literal 2) ast.Pow
              (ast.UnaryOp ast.USub (int_literal 1))).
Proof. run_all. Qed.

Example parse_left_associative :
  ast_parse "7-2-1" =
    Return (ast.BinOp
              (ast.BinOp (int_literal 7) ast.Sub (int_literal 2))
              ast.Sub (int_literal 1)) /\
  ast_parse "8/4/2" =
    Return (ast.BinOp
              (ast.BinOp (int_literal 8) ast.Div (int_literal 4))
              ast.Div (int_literal 2)).
Proof. run_all. Qed.

Example parse_non_arithmetic :
  ast_parse "1<2<=x" =
    Return (ast.Compare (int_literal 1) [ast.Lt; ast.LtE]
              [int_literal 2; ast.Name "x"]) /\
  ast_parse "a or b or not c" =
    Return (ast.BoolOp ast.Or
              [ast.Name "a"; ast.Name "b";
               ast.UnaryOp ast.Not (ast.Name "c")]) /\
  ast_parse "f(1)(2,)" =
    Return (ast.Call (ast.Call (ast.Name "f") [int_literal 1])
              [int_literal 2]) /\
  ast_parse "'a' 'b'" = Return (ast.Constant (ast.CStr "ab")) /\
  ast_parse "(1,)" = Return (ast.Tuple [int_literal 1]) /\
  ast_parse "(1)" = Return (int_literal 1).
Proof. run_all. Qed.

Example parse_errors :
  ast_parse " 1" = Raise SyntaxError /\
  ast_parse "1 2" = Raise SyntaxError /\
  ast_parse "(1" = Raise SyntaxError /\
  ast_parse "012" = Raise SyntaxError /\
  ast_parse "2 * * 3" = Raise SyntaxError.
Proof. run_all. Qed.

Example parse_outside_the_fragment :
  ast_parse "1 if 2 else 3" = Unmodelled /\
  ast_parse "x[0]" = Unmodelled /\
  ast_parse "a.b" = Unmodelled /\
  ast_parse "0x10" = Unmodelled /\
  ast_parse "{1: 2}" = Unmodelled.
Proof. run_all. Qed.

(** ** C4: precedence *)

(** C4. [evaluate] honours the usual precedence, multiplication binding
    tighter than addition: [evaluate("2+3")] is 5, [evaluate("2*3+4")] is 10
    and [evaluate("2+3*4")] is 14; the trees show why. *)
Theorem precedence_honoured (rt : runtime) :
  run rt "2+3" = Return (PyInt 5) /\
  run rt "2*3+4" = Return (PyInt 10) /\
  run rt "2+3*4" = Return (PyInt 14) /\
  ast_parse "2*3+4" =
    Return (ast.BinOp
              (ast.BinOp (int_literal 2) ast.Mult (int_literal 3))
              ast.Add (int_literal 4)) /\
  ast_parse "2+3*4" =
    Return (ast.BinOp (int_literal 2) ast.Add
              (ast.BinOp (int_literal 3) ast.Mult (int_literal 4))).
Proof. run_all. Qed.

(** ** C2: exponentiation *)

(** C2, as stated, fails: the caret is the bitwise XOR of Python, parsed to
    [BitXor], which the allow-list does not hold; [evaluate("2^3")] and
    [evaluate("2^3^2")] raise [ValueError("Operator not allowed")] and
    return neither 8 nor 512. *)
Lemma caret_is_not_power :
  ast_parse "2^3" =
    Return (ast.BinOp (int_literal 2) ast.BitXor (int_literal 3)) /\
  arithmetic_operator ast.BitXor = false /\
  (forall rt, run rt "2^3" = Raise (ValueError "Operator not allowed")) /\
  (forall rt, run rt "2^3^2" = Raise (ValueError "Operator not allowed")).
Proof. run_all. Qed.

(** C2, amended. Exponentiation is written [**]: [evaluate("2**3")] is 8,
    and it associates to the right: [evaluate("2**3**2")] is 512, the value
    of [2**(3**2)], not the 64 of [(2**3)**2]. The caret is rejected with
    [ValueError("Operator not allowed")]. *)
Theorem power_right_associative (rt : runtime) :
  run rt "2**3" = Return (PyInt 8) /\
  run rt "2**3**2" = Return (PyInt 512) /\
  ast_parse "2**3**2" =
    Return (ast.BinOp (int_literal 2) ast.Pow
              (ast.BinOp (int_literal 3) ast.Pow (int_literal 2))) /\
  run rt "(2**3)**2" = Return (PyInt 64) /\
  run rt "2^3" = Raise (ValueError "Operator not allowed") /\
  run rt "2^3^2" = Raise (ValueError "Operator not allowed").
Proof. run_all. Qed.

(** ** C5: unary minus *)

(** C5. [evaluate("-5+3")] is -2, and on every operand the node
    [UnaryOp(USub, operand)] reduces the operand first and applies
    [operator.neg] to its value: the opposite of an [int], of a [float]. *)
Theorem unary_minus_honoured (rt : runtime) :
  run rt "-5+3" = Return (PyInt (-2)) /\
  (forall operand,
     result rt SafeEvaluator (ast.UnaryOp ast.USub operand) =
     match result rt SafeEvaluator operand with
     | Return v => arith_outcome (call1 operator_neg v)
     | Raise e => Raise e
     | Unmodelled => Unmodelled
     end) /\
  (forall z, call1 operator_neg (PyInt z) = inl (PyInt (- z))) /\
  (forall x, call1 operator_neg (PyFloat x) = inl (PyFloat (SFopp x))).
Proof.
  split; [run_python | ].
  split; [ | split; reflexivity].
  intro operand. rewrite result_UnaryOp. reflexivity.
Qed.

(** ** C6: division by zero *)

(** C6. [evaluate("5/0")] raises [ZeroDivisionError], a numeric fault, and
    returns no number; so does every true division of an [int] or a [float]
    by the [int] zero. *)
Theorem division_by_zero_raises (rt : runtime) :
  run rt "5/0" = Raise (OperatorError ZeroDivisionError) /\
  is_numeric_fault (OperatorError ZeroDivisionError) = true /\
  (forall a, call2 rt operator_truediv (PyInt a) (PyInt 0)
             = inr ZeroDivisionError) /\
  (forall x, call2 rt operator_truediv (PyFloat x) (PyInt 0)
             = inr ZeroDivisionError).
Proof.
  split; [run_python | ].
  split; [reflexivity | ].
  split; intros; reflexivity.
Qed.

(** ** C7 and C8: empty and incomplete input *)

(** C7, as stated, fails: the empty input raises the very [SyntaxError] an
    incomplete expression raises; no error of its own tells it apart. *)
Lemma empty_input_is_a_syntax_error :
  ast_parse "" = Raise SyntaxError /\
  (forall rt, run rt "" = Raise SyntaxError) /\
  (forall rt, run rt "" = run rt "2+").
Proof. run_all. Qed.

(** C7, amended. [evaluate("")] fails with [SyntaxError], as every input
    that does not parse; that failure differs from the rejection of a
    disallowed construct and from a numeric fault. *)
Theorem empty_input_fails (rt : runtime) :
  run rt "" = Raise SyntaxError /\
  is_rejection SyntaxError = false /\
  is_numeric_fault SyntaxError = false /\
  run rt "" <> run rt "x" /\
  run rt "" <> run rt "5/0".
Proof.
  repeat split; try run_python; vm_compute; discriminate.
Qed.

(** C8. [evaluate("2+")], an incomplete expression, fails with
    [SyntaxError]. *)
Theorem incomplete_expression_fails (rt : runtime) :
  run rt "2+" = Raise SyntaxError.
Proof. run_python. Qed.

(** ** C10: numeric literals beyond digits and a point *)

(** C10. [evaluate("1e3")] returns the float 1000.0: scientific notation is
    a float constant to the parser, and [_eval_node] returns every constant
    that holds an [int] or a [float]. *)
Theorem scientific_notation_accepted (rt : runtime) :
  run rt "1e3" = Return (PyFloat (Float.of_Z 1000)) /\
  Float.of_Z 1000 = S754_finite false 8796093022208000 (-43) /\
  (8796093022208000 = 1000 * 2 ^ 43) /\
  (forall z, result rt SafeEvaluator (ast.Constant (ast.CNum (PyInt z)))
             = Return (PyInt z)) /\
  (forall x, result rt SafeEvaluator (ast.Constant (ast.CNum (PyFloat x)))
             = Return (PyFloat x)).
Proof.
  split; [run_python | ].
  repeat split.
Qed.

(** ** C3: literals that are not numbers *)

(** C3 fails on the boolean literals: [evaluate("True")] returns [True],
    because [bool] is a subclass of [int] and passes
    [isinstance(node.value, (int, float))]; booleans then compute as 1 and
    0. The node Python < 3.8 builds for the same literal, [NameConstant], is
    rejected. *)
Theorem boolean_literal_accepted (rt : runtime) :
  run rt "True" = Return (PyBool true) /\
  run rt "False" = Return (PyBool false) /\
  run rt "True+True" = Return (PyInt 2) /\
  result rt SafeEvaluator (ast.NameConstant (ast.CNum (PyBool true)))
  = Raise (ValueError "Invalid expression").
Proof. run_all. Qed.

(** The other literals C3 lists are rejected: identifiers, calls, strings
    and collections. *)
Lemma other_literals_rejected (rt : runtime) :
  run rt "x" = Raise (ValueError "Invalid expression") /\
  run rt "f(1)" = Raise (ValueError "Invalid expression") /\
  run rt "'a'" = Raise (ValueError "Invalid constant") /\
  run rt "None" = Raise (ValueError "Invalid constant") /\
  run rt "[1,2]" = Raise (ValueError "Invalid expression") /\
  run rt "(1,2)" = Raise (ValueError "Invalid expression").
Proof. run_all. Qed.

(** ** The parser raises nothing but [SyntaxError] *)

Lemma syntax_only_Return {A : Type} (a : A) : syntax_only (Return a).
Proof. intros e H. discriminate. Qed.

Lemma syntax_only_Unmodelled {A : Type} : syntax_only (@Unmodelled A).
Proof. intros e H. discriminate. Qed.

Lemma syntax_only_Raise {A : Type} : syntax_only (@Raise A SyntaxError).
Proof. intros e H. congruence. Qed.

Lemma syntax_only_mbind {A B : Type} (m : outcome A) (k : A -> outcome B) :
  syntax_only m -> (forall a, syntax_only (k a)) -> syntax_only (mbind m k).
Proof.
  intros Hm Hk. destruct m as [a | e | ]; simpl.
  - apply Hk.
  - intros e' H. apply Hm. congruence.
  - apply syntax_only_Unmodelled.
Qed.

Ltac syntax_only_step :=
  first
    [ apply syntax_only_Return
    | apply syntax_only_Unmodelled
    | apply syntax_only_Raise
    | apply syntax_only_mbind; [ | intros ]
    | match goal with
      | |- syntax_only (match ?x with _ => _ end) => destruct x
      | |- syntax_only (if ?x then _ else _) => destruct x
      end ].

Lemma syntax_only_number (s : list ascii) : syntax_only (Lexer.number s).
Proof.
  unfold Lexer.number.
  repeat match goal with
         | |- context [let (_, _) := ?x in _] => destruct x
         | |- context [match ?x with _ => _ end] => destruct x
         end;
    repeat syntax_only_step.
Qed.

Ltac syntax_only_cases :=
  repeat match goal with
         | |- context [let (_, _) := ?x in _] => destruct x
         | |- context [match ?x with _ => _ end] => destruct x
         end;
  repeat syntax_only_step.

Lemma syntax_only_word (id : string) : syntax_only (Lexer.word id).
Proof. unfold Lexer.word. syntax_only_cases. Qed.

Lemma syntax_only_quoted (q : ascii) (s : list ascii) :
  syntax_only (Lexer.quoted q s).
Proof. unfold Lexer.quoted. syntax_only_cases. Qed.

Lemma syntax_only_tokens (fuel : nat) (s : list ascii) :
  syntax_only (tokens fuel s).
Proof.
  revert s. induction fuel as [ | fuel IH]; intro s; simpl.
  - destruct s; syntax_only_step.
  - destruct s as [ | c s']; [syntax_only_step | ].
    repeat first
      [ apply IH
      | apply syntax_only_number
      | apply syntax_only_word
      | apply syntax_only_quoted
      | syntax_only_step ].
Qed.

Lemma syntax_only_rules (fuel : nat) : rules_syntax_only fuel.
Proof.
  induction fuel as [ | fuel IH]; unfold rules_syntax_only.
  - repeat split; intros; apply syntax_only_Unmodelled.
  - destruct IH as (H1 & H2 & H3 & H4 & H5 & H6 & H7 & H8 & H9 & H10 & H11
                    & H12 & H13 & H14).
    repeat split; intros; simpl;
      repeat first
        [ apply H1 | apply H2 | apply H3 | apply H4 | apply H5 | apply H6
        | apply H7 | apply H8 | apply H9 | apply H10 | apply H11 | apply H12
        | apply H13 | apply H14 | syntax_only_step ].
Qed.

Lemma syntax_only_ast_parse (expression : string) :
  syntax_only (ast_parse expression).
Proof.
  unfold ast_parse.
  apply syntax_only_mbind; [apply syntax_only_tokens | intro ts].
  assert (H : syntax_only (Grammar.eval ts)).
  { unfold Grammar.eval.
    apply syntax_only_mbind;
      [apply syntax_only_rules | intros [[xs comma] r]].
    destruct xs as [ | x [ | y xs]]; try destruct comma;
      repeat syntax_only_step. }
  destruct (list_ascii_of_string expression) as [ | c s]; [exact H | ].
  destruct (Lexer.is_blank c); [apply syntax_only_Raise | exact H].
Qed.

(** ** C1: what is not arithmetic is never evaluated *)

(** C1, as stated, fails: ["1/0+x"] holds a name, yet it ends neither with
    the rejection of a disallowed construct nor with a [SyntaxError]. The
    operands are reduced before the operator is looked up, the division
    comes first, and the call ends with its [ZeroDivisionError]. *)
Lemma fault_before_the_name :
  ast_parse "1/0+x" =
    Return (ast.BinOp
              (ast.BinOp (int_literal 1) ast.Div (int_literal 0))
              ast.Add (ast.Name "x")) /\
  arithmetic (ast.BinOp
                (ast.BinOp (int_literal 1) ast.Div (int_literal 0))
                ast.Add (ast.Name "x")) = false /\
  (forall rt, run rt "1/0+x" = Raise (OperatorError ZeroDivisionError)) /\
  is_rejection (OperatorError ZeroDivisionError) = false /\
  OperatorError ZeroDivisionError <> SyntaxError.
Proof.
  repeat split; try run_python. discriminate.
Qed.

(** A tree that is not arithmetic is never evaluated to a value, whatever
    built it: [_eval_node] raises the [ValueError] of a rejected construct,
    or the exception of the arithmetic of an operand reduced earlier. *)
Lemma non_arithmetic_tree_raises (rt : runtime) (node : ast.node) :
  arithmetic node = false ->
  exists e,
    result rt SafeEvaluator node = Raise e /\
    (is_rejection e = true \/ is_operator_error e = true).
Proof.
  intro Hnode.
  destruct (result_cases rt node) as [[v Hv] | [e [He Hkind]]].
  - exfalso. exact (result_not_arithmetic rt node Hnode v Hv).
  - exists e. auto.
Qed.

(** [evaluate] is [evaluate_with] the parser of the model. *)
Lemma run_with_ast_parse (rt : runtime) (expression : string) :
  run rt expression = run_with rt ast_parse expression.
Proof. reflexivity. Qed.

Lemma run_with_parsed
  (rt : runtime) (parse : string -> outcome ast.node) (expression : string) :
  run_with rt parse expression =
  match parse expression with
  | Return node => result rt SafeEvaluator node
  | Raise e => Raise e
  | Unmodelled => Unmodelled
  end.
Proof.
  unfold run_with, evaluate_with. rewrite fst_bind by apply preserves_lift.
  unfold lift. simpl. destruct (parse expression); reflexivity.
Qed.

(** A node of a class the evaluator does not know (an attribute access, a
    subscript, a lambda, a conditional expression, a dict, a set, a
    comprehension, ...) is rejected where it stands, and under an
    allow-listed operation. *)
Lemma other_nodes_rejected (rt : runtime) (cls : string) :
  arithmetic (ast.Other cls) = false /\
  result rt SafeEvaluator (ast.Other cls)
  = Raise (ValueError "Invalid expression") /\
  (forall op right,
     result rt SafeEvaluator (ast.BinOp (ast.Other cls) op right)
     = Raise (ValueError "Invalid expression")) /\
  (forall op,
     result rt SafeEvaluator (ast.UnaryOp op (ast.Other cls))
     = Raise (ValueError "Invalid expression")).
Proof.
  split; [reflexivity | ]. split; [reflexivity | ]. split.
  - intros op right. rewrite result_BinOp. reflexivity.
  - intro op. rewrite result_UnaryOp. reflexivity.
Qed.

(** C1, amended. A tree that is not arithmetic (it holds a name, a call, an
    attribute access, a subscript, a lambda, a comparison, a boolean
    operation, an operator outside the allow-list, a string, a collection
    or a node of any other class) never yields a value, whatever built it:
    [_eval_node] raises, and the exception is the [ValueError] of a rejected
    construct, unless the arithmetic of an operand reduced earlier raised
    first. So it is for every input string, whatever [ast.parse] answers:
    when the parser raises, [evaluate] ends with that exception; when it
    returns a tree that is not arithmetic, [evaluate] raises as
    [_eval_node] does. The parser of the model is one such parser, and it
    raises nothing but [SyntaxError]. *)
Theorem non_arithmetic_input_raises (rt : runtime) :
  (forall node : ast.node,
     arithmetic node = false ->
     (forall v, result rt SafeEvaluator node <> Return v) /\
     exists e,
       result rt SafeEvaluator node = Raise e /\
       (is_rejection e = true \/ is_operator_error e = true)) /\
  (forall (parse : string -> outcome ast.node) (expression : string),
     (forall e,
        parse expression = Raise e ->
        run_with rt parse expression = Raise e) /\
     (forall node,
        parse expression = Return node ->
        arithmetic node = false ->
        (forall v, run_with rt parse expression <> Return v) /\
        exists e,
          result rt SafeEvaluator node = Raise e /\
          run_with rt parse expression = Raise e /\
          (is_rejection e = true \/ is_operator_error e = true))) /\
  (forall expression : string,
     (forall e,
        ast_parse expression = Raise e ->
        e = SyntaxError /\ run rt expression = Raise SyntaxError) /\
     (forall node,
        ast_parse expression = Return node ->
        arithmetic node = false ->
        exists e,
          result rt SafeEvaluator node = Raise e /\
          run rt expression = Raise e /\
          (is_rejection e = true \/ is_operator_error e = true))).
Proof.
  split; [ | split].
  - intros node Hnode.
    destruct (non_arithmetic_tree_raises rt node Hnode) as [e [He Hkind]].
    split; [intros v Hv; congruence | exists e; auto].
  - intros parse expression. split.
    + intros e Hparse. rewrite run_with_parsed, Hparse. reflexivity.
    + intros node Hparse Hnode. rewrite run_with_parsed, Hparse.
      destruct (non_arithmetic_tree_raises rt node Hnode) as [e [He Hkind]].
      split; [intros v Hv; congruence | exists e; auto].
  - intro expression. split.
    + intros e Hparse.
      pose proof (syntax_only_ast_parse expression e Hparse) as ->.
      rewrite run_parsed, Hparse. split; reflexivity.
    + intros node Hparse Hnode.
      rewrite run_parsed, Hparse.
      destruct (non_arithmetic_tree_raises rt node Hnode) as [e [He Hkind]].
      exists e. auto.
Qed.

(** The theorem at work: the [Attribute] node that [ast.parse] builds for
    ["().__class__"], a call of a name, and an input that does not
    parse. *)
Lemma non_arithmetic_input_raises_witness :
  arithmetic (ast.Other "Attribute") = false /\
  ast_parse "__import__('os')" =
    Return (ast.Call (ast.Name "__import__") [ast.Constant (ast.CStr "os")]) /\
  ast_parse "2+" = Raise SyntaxError /\
  forall rt,
    (exists e,
       result rt SafeEvaluator (ast.Other "Attribute") = Raise e /\
       run_with rt (fun _ => Return (ast.Other "Attribute")) "().__class__"
       = Raise e /\
       (is_rejection e = true \/ is_operator_error e = true)) /\
    run rt "2+" = Raise SyntaxError /\
    exists e,
      result rt SafeEvaluator
        (ast.Call (ast.Name "__import__") [ast.Constant (ast.CStr "os")])
      = Raise e /\
      run rt "__import__('os')" = Raise e /\
      (is_rejection e = true \/ is_operator_error e = true).
Proof.
  split; [reflexivity | ].
  split; [vm_compute; reflexivity | ].
  split; [vm_compute; reflexivity | ].
  intro rt.
  destruct (non_arithmetic_input_raises rt) as [_ [Hany Hmodel]].
  split; [ | split].
  - apply (proj2 (proj2 (Hany (fun _ => Return (ast.Other "Attribute"))
                           "().__class__")
                    (ast.Other "Attribute") eq_refl eq_refl)).
  - apply (proj1 (Hmodel "2+") SyntaxError). vm_compute; reflexivity.
  - apply (proj2 (Hmodel "__import__('os')")); vm_compute; reflexivity.
Defined.

(** The instances C1 names: a name, a call, a comparison, a boolean and a
    bitwise operator. *)
Lemma disallowed_constructs_rejected (rt : runtime) :
  run rt "x+1" = Raise (ValueError "Invalid expression") /\
  run rt "__import__('os')" = Raise (ValueError "Invalid expression") /\
  run rt "1<2" = Raise (ValueError "Invalid expression") /\
  run rt "1 and 2" = Raise (ValueError "Invalid expression") /\
  run rt "not 1" = Raise (ValueError "Unary operator not allowed") /\
  run rt "6&3" = Raise (ValueError "Operator not allowed") /\
  run rt "~1" = Raise (ValueError "Unary operator not allowed").
Proof. run_all. Qed.

(** ** C9: no hidden state *)

(** C9. A call of [evaluate] leaves the class as it found it, so a second
    call with the same string, run in the state the first one left, ends
    with the same outcome: the same value or the same exception. *)
Theorem evaluate_deterministic
  (rt : runtime) (expression : string) (cls : class_state) :
  snd (evaluate rt expression cls) = cls /\
  evaluate rt expression (snd (evaluate rt expression cls))
  = evaluate rt expression cls.
Proof.
  pose proof (preserves_evaluate rt expression cls) as H.
  split; [exact H | ].
  rewrite H. reflexivity.
Qed.

(** * The calculator window *)

Local Open Scope list_scope.

(** ** Strings *)

Lemma len_app (a b : pystr) : Str.len (a ++ b) = Str.len a + Str.len b.
Proof. unfold Str.len. rewrite length_app. apply Nat2Z.inj_add. Qed.

Lemma len_nonneg (s : pystr) : 0 <= Str.len s.
Proof. unfold Str.len. apply Nat2Z.is_nonneg. Qed.

Lemma clip_inside (s : pystr) (i : Z) :
  0 <= i <= Str.len s -> Str.clip s i = Z.to_nat i.
Proof.
  intros [H0 H1]. unfold Str.clip.
  destruct (i <? 0) eqn:E; [apply Z.ltb_lt in E; lia | ].
  rewrite Z.min_l by assumption. reflexivity.
Qed.

Lemma from_app (a b : pystr) : Str.from (a ++ b) (Str.len a) = b.
Proof.
  unfold Str.from. rewrite clip_inside.
  - unfold Str.len. rewrite Nat2Z.id.
    rewrite skipn_app, skipn_all, Nat.sub_diag. reflexivity.
  - rewrite len_app. pose proof (len_nonneg a). pose proof (len_nonneg b). lia.
Qed.

Lemma upto_app (a b : pystr) : Str.upto (a ++ b) (Str.len a) = a.
Proof.
  unfold Str.upto. rewrite clip_inside.
  - unfold Str.len. rewrite Nat2Z.id.
    rewrite firstn_app, firstn_all, Nat.sub_diag. simpl. apply app_nil_r.
  - rewrite len_app. pose proof (len_nonneg a). pose proof (len_nonneg b). lia.
Qed.

(** [s[:-1]] drops the last character. *)
Lemma clip_minus_one (s : pystr) (c : N) :
  Str.clip (s ++ [c]) (-1) = List.length s.
Proof.
  unfold Str.clip. change (-1 <? 0) with true. cbv iota.
  rewrite len_app. change (Str.len [c]) with 1.
  pose proof (len_nonneg s) as H.
  rewrite Z.max_r by lia.
  unfold Str.len in *. lia.
Qed.

Lemma upto_minus_one (s : pystr) (c : N) : Str.upto (s ++ [c]) (-1) = s.
Proof.
  unfold Str.upto. rewrite clip_minus_one.
  rewrite firstn_app, firstn_all, Nat.sub_diag. simpl. apply app_nil_r.
Qed.

Lemma item_app_left (a b : pystr) (i : Z) :
  0 <= i < Str.len a -> Str.item (a ++ b) i = Str.item a i.
Proof.
  intros [H0 H1]. unfold Str.item. apply app_nth1.
  unfold Str.len in H1. lia.
Qed.

Lemma item_app_right (a b : pystr) (i : Z) :
  Str.len a <= i -> Str.item (a ++ b) i = Str.item b (i - Str.len a).
Proof.
  intro H. unfold Str.item. pose proof (len_nonneg a). unfold Str.len in *.
  rewrite app_nth2 by lia. f_equal. lia.
Qed.

Lemma item_middle (a b : pystr) (c : N) :
  Str.item (a ++ c :: b) (Str.len a) = c.
Proof.
  unfold Str.item, Str.len. rewrite Nat2Z.id. apply nth_middle.
Qed.

Lemma eqb_eq (a b : pystr) : Str.eqb a b = true <-> a = b.
Proof.
  unfold Str.eqb. destruct (list_eq_dec N.eq_dec a b); split;
    intro H; congruence.
Qed.

(** ** The loops *)

(** The loop stops at the first index, going down from [i], where the
    condition fails, or at -1. *)
Lemma scan_back_stops (cond : Z -> bool) (fuel : nat) (i stop : Z) :
  -1 <= stop <= i ->
  i < Z.of_nat fuel ->
  (forall j, stop < j <= i -> cond j = true) ->
  stop = -1 \/ cond stop = false ->
  scan_back cond fuel i = stop.
Proof.
  revert i. induction fuel as [ | fuel IH]; intros i Hrange Hfuel Hrun Hstop.
  - simpl in Hfuel. simpl. lia.
  - simpl. destruct (Z.eq_dec i stop) as [-> | Hne].
    + destruct Hstop as [-> | ->]; [reflexivity | ].
      rewrite andb_false_r. reflexivity.
    + assert (H0 : (0 <=? i) = true) by (apply Z.leb_le; lia).
      rewrite H0, Hrun by lia. simpl.
      apply IH; [lia | lia | intros j Hj; apply Hrun; lia | assumption].
Qed.

(** ** The preview keeps the expression *)

Section Window.

Variable rt : runtime.
Variable u : unicode.

Lemma preview_expression (self : app) :
  expression_var (_reflect_expression_to_result_preview rt self)
  = expression_var self.
Proof.
  unfold _reflect_expression_to_result_preview.
  destruct (expression_var self) eqn:E; [simpl; assumption | ].
  destruct (evaluated rt (n :: p)); simpl; assumption.
Qed.

Lemma forallb_item (p : N -> bool) (s : pystr) (i : Z) :
  forallb p s = true -> 0 <= i < Str.len s -> p (Str.item s i) = true.
Proof.
  intros Hall [H0 H1]. rewrite forallb_forall in Hall. apply Hall.
  unfold Str.item. apply nth_In. unfold Str.len in H1. lia.
Qed.
(** The loop of [_toggle_sign] stops in front of the trailing number. *)
Lemma scan_number (prefix number : pystr) :
  forallb (number_char u) number = true ->
  (forall p c, prefix = p ++ [c] -> number_char u c = false) ->
  scan_back (in_number u (prefix ++ number))
    (List.length (prefix ++ number)) (Str.len (prefix ++ number) - 1)
  = Str.len prefix - 1.
Proof.
  intros Hnumber Hprefix.
  pose proof (len_nonneg prefix) as Hp. pose proof (len_nonneg number) as Hn.
  apply scan_back_stops.
  - rewrite len_app. lia.
  - unfold Str.len. lia.
  - intros j Hj. rewrite len_app in Hj. unfold in_number.
    rewrite item_app_right by lia.
    apply (forallb_item (number_char u)); [assumption | lia].
  - destruct prefix as [ | x xs]; [left; reflexivity | right].
    destruct (exists_last (l := x :: xs)) as [p [c Hpc]]; [discriminate | ].
    rewrite Hpc. unfold in_number. rewrite <- app_assoc.
    replace (Str.len (p ++ [c]) - 1) with (Str.len p)
      by (rewrite len_app; change (Str.len [c]) with 1; lia).
    simpl. rewrite item_middle. apply (Hprefix p c). assumption.
Qed.

(** The minus sign is no character of a number. *)
Lemma minus_not_number_char : number_char u (ord "-") = false.
Proof. reflexivity. Qed.

Lemma toggle_sign_expression (self : app) (prefix number : pystr) :
  expression_var self = prefix ++ number ->
  number <> [] ->
  forallb (number_char u) number = true ->
  (forall p c, prefix = p ++ [c] -> number_char u c = false) ->
  expression_var (_toggle_sign rt u self) = prefix ++ ord "-" :: number.
Proof.
  intros Hexpr Hne Hnumber Hprefix.
  unfold _toggle_sign. rewrite Hexpr.
  destruct (prefix ++ number) as [ | x xs] eqn:E.
  { apply app_eq_nil in E. destruct E. contradiction. }
  rewrite <- E. rewrite scan_number by assumption.
  replace (Str.len prefix - 1 + 1) with (Str.len prefix) by lia.
  rewrite from_app, upto_app.
  destruct number as [ | d ds]; [contradiction | ].
  assert (Hs : Str.startswith (d :: ds) (py "-") = false).
  { simpl in Hnumber. apply andb_prop in Hnumber. destruct Hnumber as [Hd _].
    change (Str.startswith (d :: ds) (py "-"))
      with ((45 =? d)%N && Str.startswith ds []).
    destruct (N.eqb_spec 45 d) as [<- | ]; [ | reflexivity].
    pose proof minus_not_number_char as Hm.
    change (ord "-") with 45%N in Hm. congruence. }
  rewrite Hs.
  rewrite preview_expression. reflexivity.
Qed.

(** ** [_toggle_sign] *)

(** X1. [_toggle_sign] only ever inserts a minus sign: in front of the
    trailing number (the run of digits and points that ends the
    expression). That number cannot start with a minus sign, so the branch
    that would remove one is never taken, and a second press leaves two
    minus signs. *)
Theorem toggle_sign_only_inserts (self : app) (prefix number : pystr) :
  expression_var self = prefix ++ number ->
  number <> [] ->
  forallb (number_char u) number = true ->
  (forall p c, prefix = p ++ [c] -> number_char u c = false) ->
  expression_var (_toggle_sign rt u self) = prefix ++ ord "-" :: number /\
  expression_var (_toggle_sign rt u (_toggle_sign rt u self))
  = prefix ++ ord "-" :: ord "-" :: number.
Proof.
  intros Hexpr Hne Hnumber Hprefix.
  pose proof (toggle_sign_expression self prefix number
                Hexpr Hne Hnumber Hprefix) as H1.
  split; [exact H1 | ].
  replace (prefix ++ ord "-" :: ord "-" :: number)
    with ((prefix ++ [ord "-"]) ++ ord "-" :: number)
    by (rewrite <- app_assoc; reflexivity).
  apply toggle_sign_expression; try assumption.
  - rewrite H1, <- app_assoc. reflexivity.
  - intros p c Hpc. apply app_inj_tail in Hpc. destruct Hpc as [_ <-].
    apply minus_not_number_char.
Qed.

(** Without a trailing number, [_toggle_sign] does nothing. *)
Lemma toggle_sign_without_number (self : app) (p : pystr) (c : N) :
  expression_var self = p ++ [c] ->
  number_char u c = false ->
  _toggle_sign rt u self = self.
Proof.
  intros Hexpr Hc. unfold _toggle_sign. rewrite Hexpr.
  destruct (p ++ [c]) as [ | x xs] eqn:E.
  { reflexivity. }
  rewrite <- E.
  assert (Hscan : scan_back (in_number u (p ++ [c]))
                    (List.length (p ++ [c])) (Str.len (p ++ [c]) - 1)
                  = Str.len (p ++ [c]) - 1).
  { pose proof (scan_number (p ++ [c]) []) as H.
    rewrite app_nil_r in H. apply H; [reflexivity | ].
    intros p' c' Hpc. apply app_inj_tail in Hpc. destruct Hpc as [_ <-].
    assumption. }
  rewrite Hscan.
  replace (Str.len (p ++ [c]) - 1 + 1) with (Str.len (p ++ [c])) by lia.
  pose proof (from_app (p ++ [c]) []) as Hfrom.
  rewrite app_nil_r in Hfrom. rewrite Hfrom. reflexivity.
Qed.

(** ** [_append_char] *)

(** The loop of [_append_char] finds the point that ends the expression. *)
Lemma point_behind_point (expr : pystr) :
  point_behind u (expr ++ [ord "."]) (List.length (expr ++ [ord "."]))
    (Str.len (expr ++ [ord "."]) - 1) = true.
Proof.
  rewrite length_app.
  replace (List.length expr + List.length [ord "."])%nat
    with (S (List.length expr)) by (simpl; lia).
  rewrite len_app. change (Str.len [ord "."]) with 1.
  replace (Str.len expr + 1 - 1) with (Str.len expr) by lia.
  cbn [point_behind].
  rewrite item_middle.
  assert (H : (0 <=? Str.len expr) = true)
    by (apply Z.leb_le; apply len_nonneg).
  rewrite H, N.eqb_refl, orb_true_r. reflexivity.
Qed.

(** X2. A second decimal point is ignored: after the point key the point key
    changes nothing, neither the expression nor the displayed result. *)
Theorem second_point_ignored (self : app) :
  _append_char rt u (py ".") (_append_char rt u (py ".") self)
  = _append_char rt u (py ".") self.
Proof.
  unfold _append_char at 2 3.
  change (Str.eqb (py ".") (py ".")) with true. cbv beta iota. simpl andb.
  destruct (point_behind u (expression_var self)
              (List.length (expression_var self))
              (Str.len (expression_var self) - 1)) eqn:E.
  - unfold _append_char.
    change (Str.eqb (py ".") (py ".")) with true. simpl andb.
    rewrite E. reflexivity.
  - unfold _append_char.
    change (Str.eqb (py ".") (py ".")) with true. simpl andb.
    rewrite preview_expression. simpl expression_var.
    change (py ".") with [ord "."].
    rewrite point_behind_point. reflexivity.
Qed.

(** ** [_append_operator] and [_on_key] *)

Lemma startswith_nil (s : pystr) : Str.startswith s [] = true.
Proof. destruct s; reflexivity. Qed.

Lemma endswith_char (e : pystr) (c d : N) :
  Str.endswith (e ++ [c]) [d] = (d =? c)%N.
Proof.
  unfold Str.endswith. rewrite rev_app_distr. simpl.
  rewrite startswith_nil. apply andb_true_r.
Qed.

Lemma ends_with_operator (e : pystr) (c : N) :
  existsb (Str.endswith (e ++ [c])) (Str.tuple (py "+-*/")) = operator_char c.
Proof.
  unfold operator_char. simpl. rewrite !endswith_char.
  rewrite (N.eqb_sym c 43), (N.eqb_sym c 45), (N.eqb_sym c 42),
    (N.eqb_sym c 47).
  reflexivity.
Qed.

(** What [_append_operator] makes of an expression that is not empty. *)
Lemma append_operator_expression (op : pystr) (self : app) (e : pystr) (c : N) :
  expression_var self = e ++ [c] ->
  expression_var (_append_operator rt op self)
  = (if operator_char c then e else e ++ [c]) ++ op.
Proof.
  intro Hexpr. unfold _append_operator. rewrite Hexpr.
  destruct (e ++ [c]) as [ | x xs] eqn:E.
  { destruct e; discriminate. }
  rewrite <- E. cbv beta iota. simpl andb. cbv iota.
  rewrite preview_expression. simpl expression_var.
  pose proof (ends_with_operator e c) as H. simpl in H. rewrite H.
  destruct (operator_char c); [rewrite upto_minus_one | ]; reflexivity.
Qed.

(** X3. A key event that carries no character (a modifier key) is taken for
    an operator, the empty string being a substring of ["+-*/"]: it deletes
    the operator that ends the expression. *)
Theorem key_without_character_deletes_operator
  (self : app) (e : pystr) (c : N) :
  expression_var self = e ++ [c] ->
  operator_char c = true ->
  expression_var (_on_key rt u [] self) = e.
Proof.
  intros Hexpr Hc. unfold _on_key.
  change (Str.isdigit u [] || Str.eqb [] (py ".")) with false.
  change (Str.contains (py "+-*/") []) with true. cbv iota.
  rewrite (append_operator_expression [] self e c Hexpr), Hc.
  apply app_nil_r.
Qed.

(** ** [_backspace] and [_clear] *)

Lemma backspace_expression (self : app) (e : pystr) (c : N) :
  expression_var self = e ++ [c] ->
  expression_var (_backspace rt self) = e.
Proof.
  intro Hexpr. unfold _backspace. rewrite Hexpr.
  destruct (e ++ [c]) as [ | x xs] eqn:E.
  { destruct e; discriminate. }
  rewrite <- E. rewrite preview_expression. simpl.
  apply upto_minus_one.
Qed.

Lemma backspace_last (self : app) (c : N) :
  expression_var self = [c] -> _backspace rt self = _clear self.
Proof.
  intro Hexpr. unfold _backspace, _clear. rewrite Hexpr.
  reflexivity.
Qed.

Lemma backspace_all (n : nat) (self : app) :
  List.length (expression_var self) = S n ->
  Nat.iter (S n) (_backspace rt) self = _clear self.
Proof.
  revert self. induction n as [ | n IH]; intros self Hlen.
  - simpl.
    destruct (expression_var self) as [ | c [ | d s]] eqn:E;
      try discriminate.
    apply (backspace_last self c E).
  - rewrite Nat.iter_succ_r.
    destruct (exists_last (l := expression_var self)) as [e [c Hec]].
    { intro H. rewrite H in Hlen. discriminate. }
    rewrite IH.
    + reflexivity.
    + rewrite (backspace_expression self e c Hec).
      rewrite Hec, length_app in Hlen. simpl in Hlen. lia.
Qed.

(** X4. Erasing an expression character by character ends in the state the
    C key gives: as many presses of the erase key as the expression has
    characters leave it empty and the display at 0. *)
Theorem erasing_everything_clears (self : app) :
  expression_var self <> [] ->
  Nat.iter (List.length (expression_var self)) (_backspace rt) self
  = _clear self.
Proof.
  intro Hne.
  destruct (List.length (expression_var self)) as [ | n] eqn:E.
  - apply length_zero_iff_nil in E. contradiction.
  - apply backspace_all. assumption.
Qed.

(** ** [_equals] and the preview on a rejected expression *)

Lemma evaluated_raises (expr : pystr) (s : string) :
  Str.ascii_string expr = Some s ->
  (exists e, ast_parse s = Raise e)
  \/ (exists node, ast_parse s = Return node /\ arithmetic node = false) ->
  exists e, evaluated rt expr = Raise e.
Proof.
  intros Hs H. unfold evaluated, evaluate_str, _sanitize_for_eval.
  rewrite Hs, run_parsed.
  destruct H as [[e He] | [node [Hnode Harith]]].
  - rewrite He. exists e. reflexivity.
  - rewrite Hnode.
    destruct (non_arithmetic_tree_raises rt node Harith) as [e [He _]].
    rewrite He. exists e. reflexivity.
Qed.

(** X5. An expression that does not parse, or whose tree is not
    arithmetic: when it is not empty, [_equals] shows [Error] and leaves
    the expression, and the preview leaves the window as it is. The empty
    expression does not parse either, but there the guards come first:
    [_equals] does nothing, and the preview shows [0]. *)
Theorem rejected_expression_shows_error (self : app) (s : string) :
  Str.ascii_string (expression_var self) = Some s ->
  (exists e, ast_parse s = Raise e)
  \/ (exists node, ast_parse s = Return node /\ arithmetic node = false) ->
  (expression_var self <> [] ->
   _equals rt self = set_result self (Some (py "Error")) /\
   _reflect_expression_to_result_preview rt self = self) /\
  (expression_var self = [] ->
   _equals rt self = self /\
   _reflect_expression_to_result_preview rt self
   = set_result self (Some (py "0"))).
Proof.
  intros Hs H. split.
  - intro Hne.
    destruct (evaluated_raises (expression_var self) s Hs H) as [e He].
    unfold _equals, _reflect_expression_to_result_preview.
    destruct (expression_var self) as [ | c cs] eqn:E; [contradiction | ].
    rewrite He. split; reflexivity.
  - intro Hempty.
    unfold _equals, _reflect_expression_to_result_preview.
    rewrite Hempty. split; reflexivity.
Qed.

(** ** The loops, in general *)

Lemma scan_back_le (cond : Z -> bool) (fuel : nat) (i : Z) :
  scan_back cond fuel i <= i.
Proof.
  revert i. induction fuel as [ | fuel IH]; intro i; simpl; [lia | ].
  destruct ((0 <=? i) && cond i); [ | lia].
  specialize (IH (i - 1)). lia.
Qed.

Lemma scan_back_ge (cond : Z -> bool) (fuel : nat) (i : Z) :
  -1 <= i -> -1 <= scan_back cond fuel i.
Proof.
  revert i. induction fuel as [ | fuel IH]; intros i Hi; simpl; [lia | ].
  destruct (0 <=? i) eqn:E; simpl; [ | lia].
  apply Z.leb_le in E.
  destruct (cond i); [ | lia]. apply IH. lia.
Qed.

Lemma scan_back_run (cond : Z -> bool) (fuel : nat) (i j : Z) :
  scan_back cond fuel i < j <= i -> cond j = true.
Proof.
  revert i. induction fuel as [ | fuel IH]; intros i Hj; simpl in Hj; [lia | ].
  destruct ((0 <=? i) && cond i) eqn:E; [ | lia].
  apply andb_prop in E. destruct E as [_ Hcond].
  destruct (Z.eq_dec j i) as [-> | Hne]; [assumption | ].
  apply (IH (i - 1)). lia.
Qed.

Lemma scan_back_stop (cond : Z -> bool) (fuel : nat) (i : Z) :
  i < Z.of_nat fuel ->
  0 <= scan_back cond fuel i ->
  cond (scan_back cond fuel i) = false.
Proof.
  revert i. induction fuel as [ | fuel IH]; intros i Hfuel Hr; simpl in *.
  - lia.
  - destruct (0 <=? i) eqn:E; simpl in *.
    + destruct (cond i) eqn:Hc; [ | assumption].
      apply IH; [lia | assumption].
    + apply Z.leb_gt in E. lia.
Qed.

(** ** Runs of digits and points *)

Lemma point_state_app (seen : bool) (a b : pystr) :
  point_state u seen (a ++ b) = point_state u (point_state u seen a) b.
Proof.
  revert seen. induction a as [ | c a IH]; intro seen; simpl; [reflexivity | ].
  destruct (c =? _)%N; [apply IH | ].
  destruct (Str.isdigit_char u c); apply IH.
Qed.

Lemma points_ok_app (seen : bool) (a b : pystr) :
  points_ok u seen (a ++ b)
  = points_ok u seen a && points_ok u (point_state u seen a) b.
Proof.
  revert seen. induction a as [ | c a IH]; intro seen; simpl; [reflexivity | ].
  destruct (c =? _)%N; [rewrite IH; apply andb_assoc | ].
  destruct (Str.isdigit_char u c); apply IH.
Qed.

Lemma points_ok_false (seen : bool) (s : pystr) :
  points_ok u seen s = true -> points_ok u false s = true.
Proof.
  revert seen. induction s as [ | c s IH]; intros seen H; simpl in *;
    [reflexivity | ].
  destruct (c =? _)%N.
  - apply andb_prop in H. destruct H as [_ H]. exact H.
  - destruct (Str.isdigit_char u c); [apply (IH seen) | ]; assumption.
Qed.

(** A string without a point is fine wherever it stands. *)
Lemma points_ok_pointless (seen : bool) (s : pystr) :
  forallb (fun c => negb (c =? ord "."))%N s = true ->
  points_ok u seen s = true.
Proof.
  revert seen. induction s as [ | c s IH]; intros seen H; simpl in *;
    [reflexivity | ].
  apply andb_prop in H. destruct H as [Hc Hs].
  destruct (c =? _)%N; [discriminate | ].
  destruct (Str.isdigit_char u c); apply IH; assumption.
Qed.

Lemma well_pointed_prefix (a b : pystr) :
  well_pointed u (a ++ b) -> well_pointed u a.
Proof.
  unfold well_pointed. rewrite points_ok_app. intro H.
  apply andb_prop in H. tauto.
Qed.

(** A string without a point may follow any well-pointed string. *)
Lemma well_pointed_append (a t : pystr) :
  well_pointed u a ->
  forallb (fun c => negb (c =? ord "."))%N t = true ->
  well_pointed u (a ++ t).
Proof.
  unfold well_pointed. intros Ha Ht. rewrite points_ok_app, Ha.
  apply points_ok_pointless. assumption.
Qed.

(** A minus sign may be put anywhere. *)
Lemma well_pointed_insert (a b : pystr) :
  well_pointed u (a ++ b) -> well_pointed u (a ++ ord "-" :: b).
Proof.
  unfold well_pointed. rewrite !points_ok_app. intro H.
  apply andb_prop in H. destruct H as [Ha Hb]. rewrite Ha.
  simpl. apply (points_ok_false _ _ Hb).
Qed.

(** The loop of [_append_char] reads the run that ends the expression. *)
Lemma point_behind_app (e t : pystr) (fuel : nat) (i : Z) :
  i < Str.len e ->
  point_behind u (e ++ t) fuel i = point_behind u e fuel i.
Proof.
  revert i. induction fuel as [ | fuel IH]; intros i Hi; simpl;
    [reflexivity | ].
  destruct (0 <=? i) eqn:E; [ | reflexivity].
  apply Z.leb_le in E.
  rewrite item_app_left by lia. rewrite IH by lia. reflexivity.
Qed.

Lemma point_behind_state (expr : pystr) :
  point_behind u expr (List.length expr) (Str.len expr - 1)
  = point_state u false expr.
Proof.
  induction expr as [ | c e IH] using rev_ind; [reflexivity | ].
  rewrite point_state_app. rewrite length_app.
  replace (List.length e + List.length [c])%nat
    with (S (List.length e)) by (simpl; lia).
  rewrite len_app. change (Str.len [c]) with 1.
  replace (Str.len e + 1 - 1) with (Str.len e) by lia.
  cbn [point_behind point_state].
  rewrite item_middle.
  assert (H : (0 <=? Str.len e) = true)
    by (apply Z.leb_le; apply len_nonneg).
  rewrite H. cbn [andb].
  destruct (c =? ord ".")%N eqn:Hc.
  - rewrite orb_true_r. reflexivity.
  - rewrite orb_false_r.
    destruct (Str.isdigit_char u c); [ | reflexivity].
    rewrite point_behind_app by lia. exact IH.
Qed.

(** ** Every handler keeps the numbers well pointed *)

Lemma upto_prefix (s : pystr) (i : Z) : exists t, s = Str.upto s i ++ t.
Proof.
  exists (skipn (Str.clip s i) s). unfold Str.upto.
  symmetry. apply firstn_skipn.
Qed.

Lemma well_pointed_upto (s : pystr) (i : Z) :
  well_pointed u s -> well_pointed u (Str.upto s i).
Proof.
  intro H. destruct (upto_prefix s i) as [t Ht].
  rewrite Ht in H. apply (well_pointed_prefix _ _ H).
Qed.

Lemma preview_pointed (self : app) :
  well_pointed u (expression_var self) ->
  well_pointed u
    (expression_var (_reflect_expression_to_result_preview rt self)).
Proof. rewrite preview_expression. trivial. Qed.

Lemma equals_expression (self : app) :
  expression_var (_equals rt self) = expression_var self.
Proof.
  unfold _equals.
  destruct (expression_var self) eqn:E; [assumption | ].
  destruct (evaluated rt (n :: p)); simpl; assumption.
Qed.

Lemma append_char_pointed (char : pystr) (self : app) :
  char = py "." \/ pointless char = true ->
  well_pointed u (expression_var self) ->
  well_pointed u (expression_var (_append_char rt u char self)).
Proof.
  intros Hchar Hself. unfold _append_char.
  destruct (Str.eqb char (py ".")
            && point_behind u (expression_var self)
                 (List.length (expression_var self))
                 (Str.len (expression_var self) - 1)) eqn:E;
    [assumption | ].
  rewrite preview_expression. simpl expression_var.
  destruct Hchar as [-> | Hchar].
  - change (Str.eqb (py ".") (py ".")) with true in E. simpl in E.
    rewrite point_behind_state in E.
    unfold well_pointed in *. rewrite points_ok_app, Hself.
    change (py ".") with [ord "."]. cbn [points_ok].
    rewrite N.eqb_refl, E. reflexivity.
  - apply well_pointed_append; assumption.
Qed.

Lemma append_operator_pointed (op : pystr) (self : app) :
  pointless op = true ->
  well_pointed u (expression_var self) ->
  well_pointed u (expression_var (_append_operator rt op self)).
Proof.
  intros Hop Hself. unfold _append_operator.
  destruct (match expression_var self with [] => true | _ :: _ => false end
            && Str.contains (py "+-*/") op && Str.contains (py "+*/") op);
    [assumption | ].
  rewrite preview_expression. simpl expression_var.
  apply well_pointed_append; [ | assumption].
  match goal with
  | |- context [if ?b then _ else _] => destruct b
  end; [apply well_pointed_upto | ]; assumption.
Qed.

Lemma backspace_pointed (self : app) :
  well_pointed u (expression_var self) ->
  well_pointed u (expression_var (_backspace rt self)).
Proof.
  intro Hself. unfold _backspace. rewrite preview_expression.
  destruct (expression_var self) as [ | c s] eqn:E.
  - rewrite E. assumption.
  - simpl expression_var. apply well_pointed_upto. assumption.
Qed.

(** *** [_toggle_sign] *)

Lemma skipn_cons_nth (k : nat) (s : pystr) (d : N) (ds : pystr) :
  skipn k s = d :: ds -> nth k s 0%N = d /\ (k < List.length s)%nat.
Proof.
  revert s. induction k as [ | k IH]; intros s H.
  - simpl in H. subst s. simpl. split; [reflexivity | lia].
  - destruct s as [ | c s]; [discriminate | ].
    simpl in H. destruct (IH s H) as [Hn Hk]. simpl. split; [exact Hn | lia].
Qed.

(** What [_toggle_sign] does to the expression: nothing, or it puts a
    minus sign in. *)
Lemma toggle_sign_shape (self : app) :
  expression_var (_toggle_sign rt u self) = expression_var self \/
  exists prefix number,
    expression_var self = prefix ++ number /\
    expression_var (_toggle_sign rt u self) = prefix ++ ord "-" :: number.
Proof.
  unfold _toggle_sign.
  destruct (expression_var self) as [ | x xs] eqn:E; [left; assumption | ].
  rewrite <- E. clear E x xs.
  set (expr := expression_var self).
  set (i := scan_back (in_number u expr) (List.length expr)
              (Str.len expr - 1)).
  destruct (Str.from expr (i + 1)) as [ | d ds] eqn:Hnumber;
    [left; reflexivity | right].
  exists (Str.upto expr (i + 1)), (d :: ds). split.
  { rewrite <- Hnumber. unfold Str.upto, Str.from.
    symmetry. apply firstn_skipn. }
  assert (Hlow : -1 <= i).
  { apply scan_back_ge. pose proof (len_nonneg expr). lia. }
  assert (Hhigh : i <= Str.len expr - 1) by apply scan_back_le.
  unfold Str.from in Hnumber.
  apply skipn_cons_nth in Hnumber. destruct Hnumber as [Hd Hk].
  assert (Hclip : Str.clip expr (i + 1) = Z.to_nat (i + 1)).
  { unfold Str.clip. destruct (i + 1 <? 0) eqn:C;
      [apply Z.ltb_lt in C; lia | ]. f_equal. lia. }
  rewrite Hclip in Hd, Hk.
  assert (Hcond : in_number u expr (i + 1) = true).
  { apply (scan_back_run _ (List.length expr) (Str.len expr - 1)).
    fold i. unfold Str.len in *. lia. }
  unfold in_number, Str.item in Hcond. rewrite Hd in Hcond.
  assert (Hs : Str.startswith (d :: ds) (py "-") = false).
  { change (Str.startswith (d :: ds) (py "-"))
      with ((45 =? d)%N && Str.startswith ds []).
    destruct (N.eqb_spec 45 d) as [<- | ]; [ | reflexivity].
    pose proof minus_not_number_char as Hm. unfold number_char in Hm.
    change (ord "-") with 45%N in Hm. congruence. }
  rewrite Hs. rewrite preview_expression. reflexivity.
Qed.

Lemma toggle_sign_pointed (self : app) :
  well_pointed u (expression_var self) ->
  well_pointed u (expression_var (_toggle_sign rt u self)).
Proof.
  intro Hself.
  destruct (toggle_sign_shape self) as [-> | [prefix [number [He ->]]]];
    [assumption | ].
  apply well_pointed_insert. rewrite <- He. assumption.
Qed.

(** *** [_percent] *)

Lemma ascii_digit_char (c : N) :
  Str.is_ascii_digit c = true ->
  (c =? ord ".")%N = false /\ Str.isdigit_char u c = true.
Proof.
  intro H. unfold Str.is_ascii_digit in H. apply andb_prop in H.
  destruct H as [H1 H2]. apply N.leb_le in H1. apply N.leb_le in H2.
  split.
  - apply N.eqb_neq. change (ord ".") with 46%N. lia.
  - unfold Str.isdigit_char, Str.is_ascii_digit.
    assert (H : (c <? 128)%N = true) by (apply N.ltb_lt; lia).
    rewrite H. apply andb_true_intro.
    split; apply N.leb_le; assumption.
Qed.

(** ASCII digits neither hold a point nor end a run. *)
Lemma digits_points_ok (seen : bool) (ds t : pystr) :
  forallb Str.is_ascii_digit ds = true ->
  points_ok u seen (ds ++ t) = points_ok u seen t.
Proof.
  induction ds as [ | c ds IH]; intro H; [reflexivity | ].
  simpl in H. apply andb_prop in H. destruct H as [Hc Hds].
  destruct (ascii_digit_char c Hc) as [H1 H2].
  cbn [List.app points_ok]. rewrite H1, H2. apply IH. assumption.
Qed.

Lemma uint_digits_ascii (d : Decimal.uint) :
  forallb Str.is_ascii_digit (Str.uint_digits d) = true.
Proof.
  induction d; [reflexivity | ..];
    cbn [Str.uint_digits forallb]; rewrite IHd; reflexivity.
Qed.

Lemma digit_of_Z (x : Z) :
  Str.is_ascii_digit (Z.to_N (48 + x mod 10)) = true.
Proof.
  pose proof (Z.mod_pos_bound x 10 ltac:(lia)) as H.
  unfold Str.is_ascii_digit. apply andb_true_intro.
  split; apply N.leb_le; lia.
Qed.

Lemma six_digits_ascii (k : Z) :
  forallb Str.is_ascii_digit (Builtins.six_digits k) = true.
Proof.
  unfold Builtins.six_digits. cbn [map forallb].
  rewrite !digit_of_Z. reflexivity.
Qed.

Lemma millionths_nonneg (m : positive) (e : Z) :
  0 <= Builtins.millionths m e.
Proof.
  unfold Builtins.millionths. destruct (0 <=? e) eqn:E.
  - apply Z.leb_le in E. pose proof (Z.pow_nonneg 2 e ltac:(lia)). nia.
  - apply Z.leb_gt in E.
    assert (Hden : 0 < 2 ^ (- e)) by (apply Z.pow_pos_nonneg; lia).
    assert (Hq : 0 <= (Z.pos m * 10 ^ 6) / 2 ^ (- e))
      by (apply Z.div_pos; lia).
    cbv zeta.
    repeat match goal with
           | |- context [if ?b then _ else _] => destruct b
           end; lia.
Qed.

Lemma fixed_pointed (s : bool) (n : Z) :
  0 <= n ->
  points_ok u false (Builtins.sign_text s ++ Builtins.fixed n) = true.
Proof.
  intro Hn.
  assert (H : points_ok u false (Builtins.fixed n) = true).
  { unfold Builtins.fixed, Str.of_Z.
    assert (Hq : 0 <= n / 10 ^ 6) by (apply Z.div_pos; lia).
    destruct (n / 10 ^ 6 <? 0) eqn:E; [apply Z.ltb_lt in E; lia | ].
    unfold Str.of_N. rewrite digits_points_ok by apply uint_digits_ascii.
    cbn [points_ok]. rewrite N.eqb_refl. cbn [negb andb].
    rewrite <- (app_nil_r (Builtins.six_digits _)).
    rewrite digits_points_ok by apply six_digits_ascii. reflexivity. }
  destruct s; [ | exact H].
  change (Builtins.sign_text true ++ Builtins.fixed n)
    with (ord "-" :: Builtins.fixed n).
  cbn [points_ok]. change (ord "-" =? ord ".")%N with false.
  change (Str.isdigit_char u (ord "-")) with false. exact H.
Qed.

(** The text of a float has at most one point. *)
Lemma format_float_pointed (x : spec_float) :
  points_ok u false (Builtins.format_float x) = true.
Proof.
  destruct x as [s | s | | s m e].
  - apply fixed_pointed. lia.
  - destruct s; reflexivity.
  - reflexivity.
  - apply fixed_pointed. apply millionths_nonneg.
Qed.

Lemma drop_while_suffix (p : N -> bool) (s : pystr) :
  exists t, s = t ++ Str.drop_while p s.
Proof.
  induction s as [ | c s [t IH]]; [exists []; reflexivity | ].
  simpl. destruct (p c).
  - exists (c :: t). simpl. f_equal. exact IH.
  - exists []. reflexivity.
Qed.

(** [rstrip] leaves a prefix. *)
Lemma rstrip_prefix (s chars : pystr) :
  exists t, s = Str.rstrip s chars ++ t.
Proof.
  unfold Str.rstrip.
  destruct (drop_while_suffix (fun c => existsb (N.eqb c) chars) (rev s))
    as [t H].
  exists (rev t). apply (f_equal (@rev N)) in H.
  rewrite rev_involutive, rev_app_distr in H. exact H.
Qed.

Lemma well_pointed_rstrip (s chars : pystr) :
  well_pointed u s -> well_pointed u (Str.rstrip s chars).
Proof.
  intro H. destruct (rstrip_prefix s chars) as [t Ht].
  rewrite Ht in H. apply (well_pointed_prefix _ _ H).
Qed.

Lemma percent_text_pointed (number text : pystr) :
  percent_text u number = Return text -> well_pointed u text.
Proof.
  unfold percent_text. destruct (Builtins.float u number); simpl;
    intro H; [ | discriminate | discriminate].
  injection H as <-. do 2 apply well_pointed_rstrip.
  apply format_float_pointed.
Qed.

Lemma firstn_succ (k : nat) (s : pystr) :
  (k < List.length s)%nat ->
  firstn (S k) s = firstn k s ++ [nth k s 0%N].
Proof.
  revert s. induction k as [ | k IH]; intros s H;
    (destruct s as [ | c s]; [simpl in H; lia | ]).
  - reflexivity.
  - simpl in H. rewrite firstn_cons, (firstn_cons k), IH by lia.
    reflexivity.
Qed.

(** The loop of [_percent] stops behind a character that ends a run, or at
    the front. *)
Lemma percent_prefix_state (expr : pystr) :
  point_state u false
    (Str.upto expr
       (scan_back (in_signed_number u expr) (List.length expr)
          (Str.len expr - 1) + 1))
  = false.
Proof.
  set (i := scan_back (in_signed_number u expr) (List.length expr)
              (Str.len expr - 1)).
  assert (Hlow : -1 <= i).
  { apply scan_back_ge. pose proof (len_nonneg expr). lia. }
  assert (Hhigh : i <= Str.len expr - 1) by apply scan_back_le.
  assert (Hclip : Str.clip expr (i + 1) = Z.to_nat (i + 1)).
  { unfold Str.clip. destruct (i + 1 <? 0) eqn:C;
      [apply Z.ltb_lt in C; lia | ]. f_equal. lia. }
  unfold Str.upto. rewrite Hclip.
  destruct (Z.eq_dec i (-1)) as [-> | Hne]; [reflexivity | ].
  assert (Hcond : in_signed_number u expr i = false).
  { apply scan_back_stop; [unfold Str.len; lia | fold i; lia]. }
  unfold in_signed_number in Hcond.
  apply orb_false_elim in Hcond. destruct Hcond as [Hcond _].
  apply orb_false_elim in Hcond. destruct Hcond as [Hdigit Hpoint].
  replace (Z.to_nat (i + 1)) with (S (Z.to_nat i)) by lia.
  rewrite firstn_succ by (unfold Str.len in Hhigh; lia).
  rewrite point_state_app. cbn [point_state].
  unfold Str.item in Hdigit, Hpoint. rewrite Hdigit, Hpoint. reflexivity.
Qed.

Lemma percent_pointed (self : app) :
  well_pointed u (expression_var self) ->
  well_pointed u (expression_var (_percent rt u self)).
Proof.
  intro Hself. unfold _percent.
  destruct (expression_var self) as [ | x xs] eqn:E; [rewrite E; assumption | ].
  rewrite <- E in *. clear E x xs.
  destruct (percent_text u _) as [text | | ] eqn:Htext; try assumption.
  rewrite preview_expression. simpl expression_var.
  unfold well_pointed. rewrite points_ok_app.
  rewrite percent_prefix_state.
  apply andb_true_intro. split.
  - apply well_pointed_upto. assumption.
  - apply (percent_text_pointed _ _ Htext).
Qed.

(** *** The dispatch of the events *)

Lemma isdigit_pointless (s : pystr) :
  Str.isdigit u s = true -> pointless s = true.
Proof.
  intro H. assert (Hall : forallb (Str.isdigit_char u) s = true)
    by (destruct s; [discriminate | exact H]).
  clear H. unfold pointless.
  induction s as [ | c s IH]; [reflexivity | ].
  simpl in Hall. apply andb_prop in Hall. destruct Hall as [Hc Hs].
  cbn [forallb]. rewrite (IH Hs), andb_true_r.
  destruct (N.eqb_spec c (ord ".")) as [-> | ]; [discriminate | reflexivity].
Qed.

Lemma startswith_In (s p : pystr) (c : N) :
  Str.startswith s p = true -> In c p -> In c s.
Proof.
  revert s. induction p as [ | x p IH]; intros s H Hc; [destruct Hc | ].
  destruct s as [ | y s]; [discriminate | ].
  simpl in H. apply andb_prop in H. destruct H as [Hxy Hs].
  apply N.eqb_eq in Hxy. subst y.
  destruct Hc as [-> | Hc]; [left; reflexivity | right].
  apply (IH s Hs Hc).
Qed.

(** The characters of a substring are characters of the string. *)
Lemma contains_In (hay needle : pystr) (c : N) :
  Str.contains hay needle = true -> In c needle -> In c hay.
Proof.
  intros H Hc. induction hay as [ | x hay IH].
  - cbn [Str.contains] in H. rewrite orb_false_r in H.
    apply (startswith_In _ _ _ H Hc).
  - cbn [Str.contains] in H. apply orb_prop in H. destruct H as [H | H].
    + apply (startswith_In _ _ _ H Hc).
    + right. apply (IH H).
Qed.

Lemma operator_pointless (op : pystr) :
  Str.contains (py "+-*/") op = true -> pointless op = true.
Proof.
  intro H. unfold pointless. apply forallb_forall. intros c Hc.
  pose proof (contains_In _ _ c H Hc) as Hin.
  simpl in Hin.
  destruct Hin as [<- | [<- | [<- | [<- | []]]]]; reflexivity.
Qed.

Lemma on_key_pointed (char : pystr) (self : app) :
  well_pointed u (expression_var self) ->
  well_pointed u (expression_var (_on_key rt u char self)).
Proof.
  intro Hself. unfold _on_key.
  destruct (Str.isdigit u char) eqn:Hdigit; cbn [orb].
  { apply append_char_pointed; [right | assumption].
    apply isdigit_pointless. assumption. }
  destruct (Str.eqb char (py ".")) eqn:Hpoint.
  { apply append_char_pointed; [left | assumption].
    apply eqb_eq. assumption. }
  destruct (Str.contains (py "+-*/") char) eqn:Hop; [ | assumption].
  apply append_operator_pointed; [ | assumption].
  apply operator_pointless. assumption.
Qed.

Ltac decide_labels :=
  repeat match goal with
         | |- context [Str.eqb ?a ?b] =>
             let r := eval vm_compute in (Str.eqb a b) in
             change (Str.eqb a b) with r
         end.

Lemma on_press_pointed (label : pystr) (self : app) :
  In label labels ->
  well_pointed u (expression_var self) ->
  well_pointed u (expression_var (_on_press rt u label self)).
Proof.
  intros Hlabel Hself.
  assert (Hclear : well_pointed u (expression_var (_clear self)))
    by reflexivity.
  pose proof (backspace_pointed self Hself) as Hback.
  pose proof (toggle_sign_pointed self Hself) as Htoggle.
  pose proof (percent_pointed self Hself) as Hpercent.
  assert (Hequals : well_pointed u (expression_var (_equals rt self)))
    by (rewrite equals_expression; assumption).
  assert (Hop : forall op, pointless op = true ->
                well_pointed u (expression_var (_append_operator rt op self)))
    by (intros op H; apply append_operator_pointed; assumption).
  assert (Hchar : forall char, char = py "." \/ pointless char = true ->
                  well_pointed u (expression_var (_append_char rt u char self)))
    by (intros char H; apply append_char_pointed; assumption).
  unfold labels in Hlabel. simpl in Hlabel.
  repeat (destruct Hlabel as [<- | Hlabel]); try contradiction;
    unfold _on_press, member, mapped; cbn [existsb]; decide_labels;
    cbn [orb]; cbv iota;
    first [ assumption
          | apply Hop; reflexivity
          | apply Hchar; right; reflexivity
          | apply Hchar; left; reflexivity ].
Qed.

Lemma handle_pointed (self : app) (e : event) :
  possible e ->
  well_pointed u (expression_var self) ->
  well_pointed u (expression_var (handle rt u self e)).
Proof.
  intros He Hself. destruct e as [label | char | | | | ]; simpl.
  - apply on_press_pointed; assumption.
  - apply on_key_pointed; assumption.
  - rewrite equals_expression. assumption.
  - rewrite equals_expression. assumption.
  - apply backspace_pointed. assumption.
  - reflexivity.
Qed.

Lemma fold_pointed (events : list event) (self : app) :
  Forall possible events ->
  well_pointed u (expression_var self) ->
  well_pointed u (expression_var (fold_left (handle rt u) events self)).
Proof.
  revert self. induction events as [ | e events IH]; intros self Hall Hself;
    [assumption | ].
  inversion Hall as [ | ? ? He Hrest]; subst. simpl.
  apply IH; [assumption | ]. apply handle_pointed; assumption.
Qed.

(** ** The decimal points of the expression *)

(** X6. Whatever the user does, on the keypad or on the keyboard, no number
    of the expression ever holds two decimal points: no run of digits and
    points has more than one point. The loop of [_append_char] sees to it
    for a typed point; [_backspace], [_toggle_sign], [_percent] and the
    replacement of an operator keep it. *)
Theorem numbers_keep_one_point (events : list event) :
  Forall possible events ->
  well_pointed u (expression_var (after rt u events)).
Proof.
  intro Hall. unfold after. apply fold_pointed; [assumption | reflexivity].
Qed.

(** ** [_append_operator] *)

(** X7. Of two operators put in one after the other, the last one wins:
    behind an expression that is not empty, the second replaces the
    first. *)
Theorem last_operator_wins (self : app) (c : N) (op : pystr) :
  expression_var self <> [] ->
  operator_char c = true ->
  expression_var (_append_operator rt op (_append_operator rt [c] self))
  = expression_var (_append_operator rt op self).
Proof.
  intros Hne Hc.
  destruct (exists_last Hne) as [e [d Hexpr]].
  pose proof (append_operator_expression [c] self e d Hexpr) as H1.
  rewrite (append_operator_expression op _ _ c H1), Hc.
  rewrite (append_operator_expression op self e d Hexpr). reflexivity.
Qed.

(** X8. The guard against a leading operator can be walked around: on an
    empty expression [+], [*] and [/] are refused, but a minus sign is
    taken, and the operator that follows replaces it. *)
Theorem leading_operator_guard_bypassed (self : app) (c : N) :
  expression_var self = [] ->
  In c (py "+*/") ->
  _append_operator rt [c] self = self /\
  expression_var (_append_operator rt [c] (_append_operator rt (py "-") self))
  = [c].
Proof.
  intros Hexpr Hc.
  assert (Hminus : expression_var (_append_operator rt (py "-") self)
                   = [] ++ [ord "-"]).
  { unfold _append_operator. rewrite Hexpr.
    assert (H1 : Str.contains (py "+*/") (py "-") = false) by reflexivity.
    assert (H2 : existsb (Str.endswith []) (Str.tuple (py "+-*/")) = false)
      by reflexivity.
    rewrite H1, H2, andb_false_r.
    rewrite preview_expression. reflexivity. }
  split.
  - unfold _append_operator. rewrite Hexpr.
    simpl in Hc. destruct Hc as [<- | [<- | [<- | []]]]; reflexivity.
  - rewrite (append_operator_expression [c] _ _ _ Hminus). reflexivity.
Qed.

(** ** [_backspace] after [_append_char] *)

(** X9. [_backspace] takes back the character that [_append_char] has
    put in, unless that was a point the number already had. *)
Theorem backspace_undoes_append_char (self : app) (c : N) :
  (c = ord "." -> point_state u false (expression_var self) = false) ->
  expression_var (_backspace rt (_append_char rt u [c] self))
  = expression_var self.
Proof.
  intro Hpoint. apply (backspace_expression _ _ c).
  unfold _append_char.
  destruct (Str.eqb [c] (py ".")) eqn:E.
  - apply eqb_eq in E. injection E as E.
    rewrite point_behind_state, (Hpoint E). cbn [andb].
    rewrite preview_expression. reflexivity.
  - cbn [andb]. rewrite preview_expression. reflexivity.
Qed.

(** ** Results that are no finite number *)

(** X10. An infinity or a NaN is never displayed: when the expression
    evaluates to a float that is not finite, [int(result)] raises, so
    [_equals] shows [Error] and the preview leaves the window as it is. *)
Theorem non_finite_result_shows_error
  (self : app) (s : string) (x : spec_float) :
  expression_var self <> [] ->
  Str.ascii_string (expression_var self) = Some s ->
  run rt s = Return (PyFloat x) ->
  is_finite x = false ->
  _equals rt self = set_result self (Some (py "Error")) /\
  _reflect_expression_to_result_preview rt self = self.
Proof.
  intros Hne Hs Hrun Hx.
  assert (He : exists e, evaluated rt (expression_var self) = Raise e).
  { unfold evaluated, evaluate_str, _sanitize_for_eval.
    rewrite Hs, Hrun.
    destruct x; try discriminate; eexists; reflexivity. }
  destruct He as [e He].
  unfold _equals, _reflect_expression_to_result_preview.
  destruct (expression_var self) as [ | c cs] eqn:E; [contradiction | ].
  rewrite He. split; reflexivity.
Qed.

(** ** Integer arithmetic *)

Lemma int_value_result (node : ast.node) (z : Z) :
  int_value node = Some z ->
  result rt SafeEvaluator node = Return (PyInt z).
Proof.
  revert z. induction node; intros z H; simpl in H; try discriminate.
  - destruct n; try discriminate. injection H as <-. reflexivity.
  - destruct value as [[ | | | ] | | | | ]; try discriminate.
    injection H as <-. reflexivity.
  - destruct (int_value node1) as [a | ]; [ | discriminate].
    destruct (int_value node2) as [b | ]; [ | discriminate].
    rewrite result_BinOp, (IHnode1 a eq_refl), (IHnode2 b eq_refl).
    destruct op; try discriminate.
    + injection H as <-. reflexivity.
    + injection H as <-. reflexivity.
    + injection H as <-. reflexivity.
    + destruct (b =? 0) eqn:E; [discriminate | ]. injection H as <-.
      simpl. rewrite E. reflexivity.
    + destruct (0 <=? b) eqn:E; [ | discriminate]. injection H as <-.
      simpl. rewrite E. reflexivity.
  - rewrite result_UnaryOp.
    destruct op; try discriminate.
    + rewrite (IHnode z H). reflexivity.
    + destruct (int_value node) as [a | ]; [ | discriminate].
      injection H as <-. rewrite (IHnode a eq_refl). reflexivity.
  - rewrite result_Expr. apply IHnode. assumption.
Qed.

(** X11. Integer arithmetic is exact: an expression of integer literals
    under [+], [-], [*], [%] (divisor not zero), [**] (exponent not
    negative) and the two signs evaluates to an [int], the value the
    integers give, with no rounding and no overflow, whatever its size. *)
Theorem integer_arithmetic_exact
  (expression : string) (node : ast.node) (z : Z) :
  ast_parse expression = Return node ->
  int_value node = Some z ->
  result rt SafeEvaluator node = Return (PyInt z) /\
  run rt expression = Return (PyInt z).
Proof.
  intros Hparse Hvalue.
  pose proof (int_value_result node z Hvalue) as H.
  split; [exact H | ]. rewrite run_parsed, Hparse. exact H.
Qed.

(** ** The keypad *)

(** X12. The table of the keys, the classes of [_button_kind] and the
    chain of [_on_press] agree. A key classed as a digit, and styled so,
    is a digit or the point and puts its own label in; an operator key
    puts in the operator character of Python for it: [/] for the division
    sign, [*] for the multiplication sign, [-] for the minus sign and [+]
    for the plus key, whose label it is; an action key clears, erases,
    toggles the sign or takes the percent; the equals key evaluates. So the
    three operator labels that Python cannot read never reach the
    expression. *)
Theorem keypad_dispatch (label : pystr) (self : app) :
  In label labels ->
  (_button_kind label = py "digit" /\
   _get_button_style (_button_kind label) = py "Digit.TButton" /\
   (exists c, label = [c] /\ number_char u c = true) /\
   _on_press rt u label self = _append_char rt u label self) \/
  (_button_kind label = py "op" /\
   _get_button_style (_button_kind label) = py "Op.TButton" /\
   exists c,
     operator_char c = true /\
     ((label = DIVIDE /\ c = ord "/") \/
      (label = TIMES /\ c = ord "*") \/
      (label = MINUS_SIGN /\ c = ord "-") \/
      (label = py "+" /\ c = ord "+")) /\
     _on_press rt u label self = _append_operator rt [c] self) \/
  (_button_kind label = py "action" /\
   _get_button_style (_button_kind label) = py "Action.TButton" /\
   ((label = py "C" /\ _on_press rt u label self = _clear self) \/
    (label = ERASE /\ _on_press rt u label self = _backspace rt self) \/
    (label = PLUS_MINUS /\
     _on_press rt u label self = _toggle_sign rt u self) \/
    (label = py "%" /\ _on_press rt u label self = _percent rt u self))) \/
  (_button_kind label = py "equals" /\
   _get_button_style (_button_kind label) = py "Action.TButton" /\
   _on_press rt u label self = _equals rt self).
Proof.
  intro Hlabel. unfold labels in Hlabel. simpl in Hlabel.
  repeat (destruct Hlabel as [<- | Hlabel]); try contradiction;
    unfold _on_press, member, mapped; cbn [existsb]; decide_labels;
    cbn [orb]; cbv iota;
    first
      [ left; split; [reflexivity | ]; split; [reflexivity | ];
        split; [eexists; split; reflexivity | reflexivity]
      | right; left; split; [reflexivity | ]; split; [reflexivity | ];
        eexists; split; [ | split; [ | reflexivity]];
        [ reflexivity
        | first [ left; split; reflexivity
                | right; left; split; reflexivity
                | right; right; left; split; reflexivity
                | right; right; right; split; reflexivity ] ]
      | right; right; left; split; [reflexivity | ];
        split; [reflexivity | ];
        first [ left; split; reflexivity
              | right; left; split; reflexivity
              | right; right; left; split; reflexivity
              | right; right; right; split; reflexivity ]
      | right; right; right; split; [reflexivity | ];
        split; reflexivity ].
Qed.

(** ** Results too small to show *)

Lemma millionths_zero (m : positive) (e : Z) :
  Builtins.millionths m e = 0 -> e < 0 /\ Z.pos m < 2 ^ (- e).
Proof.
  unfold Builtins.millionths. destruct (0 <=? e) eqn:E.
  - apply Z.leb_le in E.
    pose proof (Z.pow_pos_nonneg 2 e ltac:(lia) E) as Hpow.
    intro H. nia.
  - apply Z.leb_gt in E. cbv zeta.
    assert (Hden : 0 < 2 ^ (- e)) by (apply Z.pow_pos_nonneg; lia).
    pose proof (Z.div_pos (Z.pos m * 10 ^ 6) (2 ^ (- e)) ltac:(lia) Hden)
      as Hq.
    intro H.
    assert (H0 : Z.pos m * 10 ^ 6 / 2 ^ (- e) = 0).
    { repeat match type of H with
             | context [if ?b then _ else _] => destruct b
             end; lia. }
    apply Z.div_small_iff in H0; [ | lia]. split; lia.
Qed.

(** X13. A result that is not zero but rounds to no millionth is shown as
    [0], or as [-0] when it is negative: the six digits that the format
    writes are all stripped, with the point. *)
Theorem tiny_result_shown_as_zero (s : bool) (m : positive) (e : Z) :
  Builtins.millionths m e = 0 ->
  pretty (PyFloat (S754_finite s m e))
  = Return (Builtins.sign_text s ++ py "0").
Proof.
  intro H. destruct (millionths_zero m e H) as [He Hm].
  unfold pretty.
  cbn [Builtins.int Builtins.int_of_float Builtins.int_eq
       Builtins.int_eq_float Builtins.format_f Builtins.format_float].
  destruct (0 <=? e) eqn:E; [apply Z.leb_le in E; lia | ].
  rewrite Z.div_small by lia. rewrite Z.mod_small by lia.
  assert (Hz : (Z.pos m =? 0) = false) by (apply Z.eqb_neq; lia).
  rewrite H.
  destruct s; cbn [mbind]; rewrite Hz; cbn [andb mbind]; reflexivity.
Qed.

(** ** [_toggle_sign] and [_percent] without a number *)

Lemma percent_without_number (self : app) (p : pystr) (c : N) :
  expression_var self = p ++ [c] ->
  number_char u c = false ->
  c <> ord "-" ->
  _percent rt u self = self.
Proof.
  intros Hexpr Hc Hminus. unfold _percent. rewrite Hexpr.
  destruct (p ++ [c]) as [ | x xs] eqn:E; [reflexivity | ].
  rewrite <- E.
  assert (Hscan : scan_back (in_signed_number u (p ++ [c]))
                    (List.length (p ++ [c])) (Str.len (p ++ [c]) - 1)
                  = Str.len (p ++ [c]) - 1).
  { rewrite length_app.
    replace (List.length p + List.length [c])%nat
      with (S (List.length p)) by (simpl; lia).
    rewrite len_app. change (Str.len [c]) with 1.
    replace (Str.len p + 1 - 1) with (Str.len p) by lia.
    cbn [scan_back]. unfold in_signed_number at 1.
    rewrite item_middle.
    unfold number_char in Hc. rewrite Hc.
    apply N.eqb_neq in Hminus. rewrite Hminus.
    rewrite andb_false_r. reflexivity. }
  rewrite Hscan.
  replace (Str.len (p ++ [c]) - 1 + 1) with (Str.len (p ++ [c])) by lia.
  pose proof (from_app (p ++ [c]) []) as Hfrom.
  rewrite app_nil_r in Hfrom. rewrite Hfrom. reflexivity.
Qed.

(** X14. Behind an operator, a bracket or any character that is no digit,
    point or minus sign, there is no number to work on: the sign key and
    the percent key leave the window as it is. *)
Theorem sign_and_percent_need_a_number (self : app) (p : pystr) (c : N) :
  expression_var self = p ++ [c] ->
  number_char u c = false ->
  c <> ord "-" ->
  _toggle_sign rt u self = self /\ _percent rt u self = self.
Proof.
  intros Hexpr Hc Hminus. split.
  - apply (toggle_sign_without_number self p c); assumption.
  - apply (percent_without_number self p c); assumption.
Qed.

(** ** The percent of a whole number *)

(** X15. The percent of a whole number below 1000 is its exact
    hundredth: the float division by 100, the six digits of the format and
    the two [rstrip]s give [0.07] for [7], [1.25] for [125], [3] for
    [300], with no digit of a rounding error. *)
Theorem percent_of_whole_number_exact (n : N) :
  (n < 1000)%N ->
  percent_text u (Str.of_N n) = Return (hundredth n).
Proof.
  intro Hn.
  assert (Hall : forallb (percent_exact u)
                   (map N.of_nat (seq 0 (N.to_nat 1000)))
                 = true) by (vm_compute; reflexivity).
  rewrite forallb_forall in Hall.
  assert (Hin : In n (map N.of_nat (seq 0 (N.to_nat 1000)))).
  { apply in_map_iff. exists (N.to_nat n). split; [lia | ].
    apply in_seq. lia. }
  specialize (Hall n Hin). unfold percent_exact in Hall.
  destruct (percent_text u (Str.of_N n)) as [text | | ];
    [ | discriminate | discriminate].
  apply eqb_eq in Hall. rewrite Hall. reflexivity.
Qed.

End Window.

(** * The properties of the window at work *)

Lemma toggle_sign_only_inserts_witness :
  py "2+5" = py "2+" ++ py "5" /\
  forall rt u,
    expression_var
      (_toggle_sign rt u
         {| expression_var := py "2+5"; result_var := Some (py "7") |})
    = py "2+-5" /\
    expression_var
      (_toggle_sign rt u
         (_toggle_sign rt u
            {| expression_var := py "2+5"; result_var := Some (py "7") |}))
    = py "2+--5".
Proof.
  split; [reflexivity | ]. intros rt u.
  apply (toggle_sign_only_inserts rt u
           {| expression_var := py "2+5"; result_var := Some (py "7") |}
           (py "2+") (py "5")).
  - reflexivity.
  - discriminate.
  - reflexivity.
  - intros p c H. change (py "2+") with ([50] ++ [43])%N in H.
    apply app_inj_tail in H. destruct H as [_ <-]. reflexivity.
Defined.

Lemma key_without_character_deletes_operator_witness :
  operator_char (ord "+") = true /\
  forall rt u,
    expression_var
      (_on_key rt u []
         {| expression_var := py "2+"; result_var := Some (py "2") |})
    = py "2".
Proof.
  split; [reflexivity | ]. intros rt u.
  apply (key_without_character_deletes_operator rt u
           {| expression_var := py "2+"; result_var := Some (py "2") |}
           (py "2") (ord "+")); reflexivity.
Defined.

Lemma erasing_everything_clears_witness :
  py "12.5" <> [] /\
  forall rt,
    Nat.iter 4 (_backspace rt)
      {| expression_var := py "12.5"; result_var := Some (py "12.5") |}
    = _clear {| expression_var := py "12.5"; result_var := Some (py "12.5") |}.
Proof.
  split; [discriminate | ]. intro rt.
  apply (erasing_everything_clears rt
           {| expression_var := py "12.5"; result_var := Some (py "12.5") |}).
  discriminate.
Defined.

Lemma rejected_expression_shows_error_witness :
  Str.ascii_string (py "2^3") = Some "2^3"%string /\
  ast_parse "2^3"
  = Return (ast.BinOp (ast.Constant (ast.CNum (PyInt 2))) ast.BitXor
              (ast.Constant (ast.CNum (PyInt 3)))) /\
  ast_parse "" = Raise SyntaxError /\
  forall rt,
    (_equals rt {| expression_var := py "2^3"; result_var := Some (py "2") |}
     = {| expression_var := py "2^3"; result_var := Some (py "Error") |} /\
     _reflect_expression_to_result_preview rt
       {| expression_var := py "2^3"; result_var := Some (py "2") |}
     = {| expression_var := py "2^3"; result_var := Some (py "2") |}) /\
    (_equals rt {| expression_var := []; result_var := Some (py "7") |}
     = {| expression_var := []; result_var := Some (py "7") |} /\
     _reflect_expression_to_result_preview rt
       {| expression_var := []; result_var := Some (py "7") |}
     = {| expression_var := []; result_var := Some (py "0") |}).
Proof.
  split; [reflexivity | ]. split; [vm_compute; reflexivity | ].
  split; [vm_compute; reflexivity | ]. intro rt. split.
  - apply (proj1 (rejected_expression_shows_error rt
                    {| expression_var := py "2^3";
                       result_var := Some (py "2") |}
                    "2^3"%string eq_refl
                    (or_intror
                       (ex_intro _
                          (ast.BinOp (ast.Constant (ast.CNum (PyInt 2)))
                             ast.BitXor (ast.Constant (ast.CNum (PyInt 3))))
                          (conj eq_refl eq_refl))))).
    discriminate.
  - apply (proj2 (rejected_expression_shows_error rt
                    {| expression_var := [];
                       result_var := Some (py "7") |}
                    ""%string eq_refl
                    (or_introl (ex_intro _ SyntaxError eq_refl)))).
    reflexivity.
Defined.

Ltac in_labels :=
  unfold possible, labels, buttons;
  cbn [List.concat map fst List.app In];
  repeat (first [left; reflexivity | right]).

Lemma numbers_keep_one_point_witness :
  Forall possible
    [Press (py "1"); Press (py "."); Press (py "5"); Press (py ".");
     Press PLUS_MINUS; Press (py "%"); Key (py "."); KeyBackSpace;
     Press TIMES; Key (py "."); Key (py "."); KeyReturn] /\
  forall rt u,
    well_pointed u
      (expression_var
         (after rt u
            [Press (py "1"); Press (py "."); Press (py "5"); Press (py ".");
             Press PLUS_MINUS; Press (py "%"); Key (py "."); KeyBackSpace;
             Press TIMES; Key (py "."); Key (py "."); KeyReturn])).
Proof.
  assert (H : Forall possible
                [Press (py "1"); Press (py "."); Press (py "5");
                 Press (py "."); Press PLUS_MINUS; Press (py "%");
                 Key (py "."); KeyBackSpace; Press TIMES; Key (py ".");
                 Key (py "."); KeyReturn]).
  { repeat (apply Forall_cons; [first [exact I | in_labels] | ]).
    apply Forall_nil. }
  split; [exact H | ]. intros rt u.
  exact (numbers_keep_one_point rt u _ H).
Defined.

Lemma last_operator_wins_witness :
  operator_char (ord "+") = true /\
  forall rt,
    expression_var
      (_append_operator rt (py "*")
         (_append_operator rt [ord "+"]
            {| expression_var := py "2"; result_var := Some (py "2") |}))
    = expression_var
        (_append_operator rt (py "*")
           {| expression_var := py "2"; result_var := Some (py "2") |}).
Proof.
  split; [reflexivity | ]. intro rt.
  apply (last_operator_wins rt
           {| expression_var := py "2"; result_var := Some (py "2") |}
           (ord "+") (py "*")).
  - discriminate.
  - reflexivity.
Defined.

Lemma leading_operator_guard_bypassed_witness :
  In (ord "+") (py "+*/") /\
  forall rt,
    _append_operator rt [ord "+"] initial = initial /\
    expression_var
      (_append_operator rt [ord "+"] (_append_operator rt (py "-") initial))
    = [ord "+"].
Proof.
  split; [left; reflexivity | ]. intro rt.
  apply (leading_operator_guard_bypassed rt initial (ord "+")).
  - reflexivity.
  - left. reflexivity.
Defined.

Lemma backspace_undoes_append_char_witness :
  forallb (fun c => negb (c =? ord "."))%N (py "15") = true /\
  forall rt u,
    expression_var
      (_backspace rt
         (_append_char rt u [ord "."]
            {| expression_var := py "15"; result_var := Some (py "15") |}))
    = py "15".
Proof.
  split; [reflexivity | ]. intros rt u.
  apply (backspace_undoes_append_char rt u
           {| expression_var := py "15"; result_var := Some (py "15") |}
           (ord ".")).
  intros _. reflexivity.
Defined.

Lemma non_finite_result_shows_error_witness :
  Str.ascii_string (py "1e999") = Some "1e999"%string /\
  forall rt,
    run rt "1e999" = Return (PyFloat (S754_infinity false)) /\
    _equals rt {| expression_var := py "1e999"; result_var := Some (py "1") |}
    = {| expression_var := py "1e999"; result_var := Some (py "Error") |} /\
    _reflect_expression_to_result_preview rt
      {| expression_var := py "1e999"; result_var := Some (py "1") |}
    = {| expression_var := py "1e999"; result_var := Some (py "1") |}.
Proof.
  split; [reflexivity | ]. intro rt.
  assert (Hrun : run rt "1e999" = Return (PyFloat (S754_infinity false)))
    by (vm_compute; reflexivity).
  split; [exact Hrun | ].
  apply (non_finite_result_shows_error rt
           {| expression_var := py "1e999"; result_var := Some (py "1") |}
           "1e999"%string (S754_infinity false)).
  - discriminate.
  - reflexivity.
  - exact Hrun.
  - reflexivity.
Defined.

Lemma integer_arithmetic_exact_witness :
  ast_parse "-7%3+2**100"
  = Return
      (ast.BinOp
         (ast.BinOp (ast.UnaryOp ast.USub (ast.Constant (ast.CNum (PyInt 7))))
            ast.Mod (ast.Constant (ast.CNum (PyInt 3))))
         ast.Add
         (ast.BinOp (ast.Constant (ast.CNum (PyInt 2))) ast.Pow
            (ast.Constant (ast.CNum (PyInt 100))))) /\
  forall rt,
    result rt SafeEvaluator
      (ast.BinOp
         (ast.BinOp (ast.UnaryOp ast.USub (ast.Constant (ast.CNum (PyInt 7))))
            ast.Mod (ast.Constant (ast.CNum (PyInt 3))))
         ast.Add
         (ast.BinOp (ast.Constant (ast.CNum (PyInt 2))) ast.Pow
            (ast.Constant (ast.CNum (PyInt 100)))))
    = Return (PyInt 1267650600228229401496703205378) /\
    run rt "-7%3+2**100" = Return (PyInt 1267650600228229401496703205378).
Proof.
  assert (H : ast_parse "-7%3+2**100"
              = Return
                  (ast.BinOp
                     (ast.BinOp
                        (ast.UnaryOp ast.USub
                           (ast.Constant (ast.CNum (PyInt 7))))
                        ast.Mod (ast.Constant (ast.CNum (PyInt 3))))
                     ast.Add
                     (ast.BinOp (ast.Constant (ast.CNum (PyInt 2))) ast.Pow
                        (ast.Constant (ast.CNum (PyInt 100))))))
    by (vm_compute; reflexivity).
  split; [exact H | ]. intro rt.
  apply (integer_arithmetic_exact rt "-7%3+2**100" _ _ H).
  vm_compute. reflexivity.
Defined.

Lemma keypad_dispatch_witness :
  In DIVIDE labels /\
  forall rt u self,
    _on_press rt u DIVIDE self = _append_operator rt (py "/") self.
Proof.
  assert (H : In DIVIDE labels) by (simpl; tauto).
  split; [exact H | ]. intros rt u self.
  destruct (keypad_dispatch rt u DIVIDE self H)
    as [[E _] | [_ | [[E _] | [E _]]]];
    try discriminate E.
  reflexivity.
Defined.

Lemma tiny_result_shown_as_zero_witness :
  Builtins.millionths 1 (-30) = 0 /\
  pretty (PyFloat (S754_finite true 1 (-30))) = Return (py "-0").
Proof.
  split; [reflexivity | ].
  apply (tiny_result_shown_as_zero true 1 (-30)). reflexivity.
Defined.

Lemma sign_and_percent_need_a_number_witness :
  ord "+" <> ord "-" /\
  forall rt u,
    _toggle_sign rt u
      {| expression_var := py "2+"; result_var := Some (py "2") |}
    = {| expression_var := py "2+"; result_var := Some (py "2") |} /\
    _percent rt u {| expression_var := py "2+"; result_var := Some (py "2") |}
    = {| expression_var := py "2+"; result_var := Some (py "2") |}.
Proof.
  split; [discriminate | ]. intros rt u.
  apply (sign_and_percent_need_a_number rt u
           {| expression_var := py "2+"; result_var := Some (py "2") |}
           (py "2") (ord "+")).
  - reflexivity.
  - reflexivity.
  - discriminate.
Defined.

Lemma percent_of_whole_number_exact_witness :
  (7 < 1000)%N /\
  forall u, percent_text u (py "7") = Return (py "0.07").
Proof.
  split; [reflexivity | ]. intro u.
  apply (percent_of_whole_number_exact u 7). reflexivity.
Defined.
